(** * Gemini chat application: chat endpoint and chat page

    A shallow embedding of [app/api/chat/route.ts] (the [POST] handler with
  its three tools) and of the chat page component (the cooldown state, the
  [useEffect] timer and [onSubmit]), with the properties of the design
  specification stated over them.

  Conventions.
  - A JavaScript string is a [string]: a sequence of code units below 256.
    Every needle the program searches for is plain ASCII.
  - A thrown value is a [thrown]: [null], [undefined], an error object
    ([JsError.t], whose [message] and [status] properties may be absent, as
    the optional chaining of the source allows), or an object whose
    [message] is some other value. An error object is read as a thrown
    value where one is expected ([ErrorObject] is a coercion).
  - A computation that may throw is a [completion]; a computation that also
    logs or calls the provider is an [Eff], a trace of effects with a
    completion. *)

From Stdlib Require Import Bool Ascii String List ZArith QArith Qround Lia Lqa ZifyNat.
Import ListNotations.

Local Open Scope string_scope.
Local Open Scope Z_scope.

(* ================================================================== *)
(** * JavaScript strings *)
(* ================================================================== *)

Module JsString.

(** [p] is found at position 0 of [s]. *)
Fixpoint starts_with (p s : string) : bool :=
  match p with
  | EmptyString => true
  | String a p' =>
      match s with
      | EmptyString => false
      | String b s' => Ascii.eqb a b && starts_with p' s'
      end
  end.

(** [s.includes(needle)]: [needle] occurs in [s] at some position. *)
Fixpoint includes (needle s : string) : bool :=
  starts_with needle s
  || match s with
     | EmptyString => false
     | String _ s' => includes needle s'
     end.

(** Code units that [String.prototype.trim] removes (below 256): TAB, LF,
    VT, FF, CR, SPACE and NBSP. *)
Definition is_white_space (c : ascii) : bool :=
  let n := nat_of_ascii c in
  (Nat.leb 9 n && Nat.leb n 13) || Nat.eqb n 32 || Nat.eqb n 160.

Fixpoint trim_start (s : string) : string :=
  match s with
  | EmptyString => EmptyString
  | String c s' => if is_white_space c then trim_start s' else s
  end.

(** Drops the white space at the end of [s]. *)
Fixpoint trim_end (s : string) : string :=
  match s with
  | EmptyString => EmptyString
  | String c s' =>
      match trim_end s' with
      | EmptyString => if is_white_space c then EmptyString else String c EmptyString
      | t => String c t
      end
  end.

(** [s.trim()]. *)
Definition trim (s : string) : string := trim_end (trim_start s).

(** Truthiness of a string: the empty string is falsy. *)
Definition truthy (s : string) : bool :=
  match s with EmptyString => false | String _ _ => true end.

(** Every code unit of [s] is white space. *)
Fixpoint all_white_space (s : string) : bool :=
  match s with
  | EmptyString => true
  | String c s' => is_white_space c && all_white_space s'
  end.

End JsString.

(* ================================================================== *)
(** * Completions and effects *)
(* ================================================================== *)

Module JsError.
(** The properties of a thrown error object that the handler reads. *)
Record t : Type := mk { message : option string; status : option Z }.
End JsError.

(** What a [throw] can carry, told apart as the handler's [catch] block
    tells them apart. [null] and [undefined] have no properties to read. An
    error object has a [message] that is absent ([undefined]) or a string; a
    thrown primitive (a string, a number) is read like an error object with
    neither [message] nor [status]. [OddMessage] is an object whose
    [message] is neither [undefined], [null] nor a string and has no
    [includes] method (a number, a boolean, a plain object). A [message]
    that is [null], that is an array, or that carries an [includes] method
    of its own, has no term. *)
Inductive thrown : Type :=
| ThrownNull
| ThrownUndefined
| ErrorObject (e : JsError.t)
| OddMessage.

Coercion ErrorObject : JsError.t >-> thrown.

Inductive completion (A : Type) : Type :=
| Normal (a : A)
| Throw (e : thrown).
Arguments Normal {A} a.
Arguments Throw {A} e.

(** [try { c } catch (error) { handler error }] on completions. *)
Definition try_catch_c {A} (c : completion A) (handler : thrown -> completion A)
  : completion A :=
  match c with
  | Normal a => Normal a
  | Throw e => handler e
  end.


(* ================================================================== *)
(** * The chat endpoint: [app/api/chat/route.ts] *)
(* ================================================================== *)

Module Endpoint.

(** One entry of the conversation sent by the page. *)
Record Message : Type := { role : string; content : string }.

(** What [await req.json()] resolves to: [null], or a value whose [messages]
    property may be absent. *)
Inductive RequestBody : Type :=
| BodyNull
| BodyValue (messages : option (list Message)).

(** The object handed to [JSON.stringify] on a failure; a property that is
    [undefined] is left out of the text. *)
Record ErrorBody : Type :=
  { error : string; type : option string; details : option string }.

(** The chunks of a streamed answer. *)
Definition StreamResult : Type := list string.

Inductive Body : Type :=
| Json (b : ErrorBody)
| Streamed (s : StreamResult).

Record Response : Type :=
  { status : Z; headers : list (string * string); body : Body }.

(** The argument of [streamText]. *)
Record CallSettings : Type :=
  { model : string;
    messages : option (list Message);
    maxTokens : Z;
    temperature : Q;
    tools : list string }.

(** The provider SDK, as far as the handler uses it: what [streamText]
    resolves to for given settings, and what [toAIStreamResponse] builds. *)
Record Sdk : Type :=
  { streamText : CallSettings -> completion StreamResult;
    toAIStreamResponse : StreamResult -> completion Response }.

Inductive effect : Type :=
| ConsoleError (label : string) (e : thrown)
| ProviderCall (settings : CallSettings).

(** A computation of the handler: the effects it performed, in order, and
    how it completed. *)
Definition Eff (A : Type) : Type := (list effect * completion A)%type.

Definition ret {A} (a : A) : Eff A := ([], Normal a).

Definition lift {A} (c : completion A) : Eff A := ([], c).

Definition emit (e : effect) : Eff unit := ([e], Normal tt).

Definition bind {A B} (m : Eff A) (k : A -> Eff B) : Eff B :=
  match m with
  | (t, Normal a) => let (t', c) := k a in ((t ++ t')%list, c)
  | (t, Throw e) => (t, Throw e)
  end.

Definition try_catch {A} (m : Eff A) (handler : thrown -> Eff A) : Eff A :=
  match m with
  | (t, Normal a) => (t, Normal a)
  | (t, Throw e) => let (t', c) := handler e in ((t ++ t')%list, c)
  end.

Notation "x <- m ;; k" := (bind m (fun x => k))
  (at level 61, m at next level, right associativity).
Notation "m ;;; k" := (bind m (fun _ => k))
  (at level 61, right associativity).

Definition trace {A} (m : Eff A) : list effect := fst m.
Definition outcome {A} (m : Eff A) : completion A := snd m.

(** [const { messages } = body]: destructuring [null] throws a TypeError. *)
Definition destructure_messages (b : RequestBody) : completion (option (list Message)) :=
  match b with
  | BodyNull =>
      Throw (JsError.mk
               (Some "Cannot destructure property 'messages' of '(intermediate value)' as it is null.")
               None)
  | BodyValue m => Normal m
  end.

(** Truthiness of [process.env.GOOGLE_GENERATIVE_AI_API_KEY]: unset and the
    empty string are falsy. *)
Definition env_truthy (v : option string) : bool :=
  match v with
  | None => false
  | Some s => JsString.truthy s
  end.

(** [error.message?.includes(needle)], as a condition. *)
Definition message_includes (e : JsError.t) (needle : string) : bool :=
  match JsError.message e with
  | None => false
  | Some m => JsString.includes needle m
  end.

(** [error.status === n]. *)
Definition status_is (e : JsError.t) (n : Z) : bool :=
  match JsError.status e with
  | None => false
  | Some s => s =? n
  end.

Definition json_headers : list (string * string) :=
  [("Content-Type", "application/json")].

(** [new Response(JSON.stringify(b), { status, headers })]. *)
Definition json_response (b : ErrorBody) (st : Z) : Response :=
  {| status := st; headers := json_headers; body := Json b |}.

(** The [catch] block of [POST], after the log line. *)
Definition classify (e : JsError.t) : Response :=
  if message_includes e "quota" || message_includes e "exceeded" then
    json_response
      {| error := "API quota exceeded. Please check your Google AI billing plan or try again later.";
         type := Some "quota_exceeded";
         details := None |}
      429
  else if message_includes e "rate limit" || status_is e 429 then
    json_response
      {| error := "Rate limit exceeded. Please wait a moment before sending another message.";
         type := Some "rate_limit";
         details := None |}
      429
  else if message_includes e "authentication" || status_is e 401 then
    json_response
      {| error := "Invalid API key. Please check your Google Gemini API key configuration.";
         type := Some "auth_error";
         details := None |}
      401
  else
    json_response
      {| error := "An unexpected error occurred. Please try again later.";
         type := Some "generic_error";
         details := JsError.message e |}
      500.

Definition missing_key_response : Response :=
  json_response
    {| error := "API key not configured. Please add your Google Gemini API key to environment variables.";
       type := None;
       details := None |}
    500.

Definition tool_names : list string := ["weather"; "calculator"; "currentTime"].

(** [streamText({...})]: the call to the provider. *)
Definition call_streamText (sdk : Sdk) (cfg : CallSettings) : Eff StreamResult :=
  emit (ProviderCall cfg) ;;; lift (streamText sdk cfg).

(** The settings of the call in [POST]. *)
Definition settings (msgs : option (list Message)) : CallSettings :=
  {| model := "gemini-1.5-flash";
     messages := msgs;
     maxTokens := 1000;
     temperature := (7 # 10)%Q;
     tools := tool_names |}.

(** The [try] block of [POST], given the configured key and what
    [req.json()] settles to. *)
Definition POST_try (sdk : Sdk) (api_key : option string) (req_json : completion RequestBody)
  : Eff Response :=
  body <- lift req_json ;;
  msgs <- lift (destructure_messages body) ;;
  if negb (env_truthy api_key) then ret missing_key_response
  else
    result <- call_streamText sdk (settings msgs) ;;
    lift (toAIStreamResponse sdk result).

(** The conditions and answers of the [catch] block for whatever was caught.
    Reading [error.message] of [null] or [undefined] throws a TypeError, and
    so does calling [includes] on a message that has no such method; nothing
    in the block catches it. The texts are those of V8. *)
Definition classify_thrown (error : thrown) : completion Response :=
  match error with
  | ThrownNull =>
      Throw (JsError.mk (Some "Cannot read properties of null (reading 'message')") None)
  | ThrownUndefined =>
      Throw (JsError.mk (Some "Cannot read properties of undefined (reading 'message')") None)
  | ErrorObject e => Normal (classify e)
  | OddMessage =>
      Throw (JsError.mk (Some "error.message?.includes is not a function") None)
  end.

(** The [catch] block of [POST]: the log line, then the classification. *)
Definition POST_catch (error : thrown) : Eff Response :=
  emit (ConsoleError "Chat API Error:" error) ;;;
  lift (classify_thrown error).

Definition POST (sdk : Sdk) (api_key : option string) (req_json : completion RequestBody)
  : Eff Response :=
  try_catch (POST_try sdk api_key req_json) POST_catch.

(** Whatever the [try] block of this call throws is an error object: not
    [null] or [undefined], and with a [message] that is absent or a string. *)
Definition throws_error_objects (sdk : Sdk) (api_key : option string)
           (req_json : completion RequestBody) : Prop :=
  forall v : thrown,
    outcome (POST_try sdk api_key req_json) = Throw v ->
    exists e : JsError.t, v = ErrorObject e.

(** The [type] and [details] of a response, where it has a JSON body. *)
Definition response_type (r : Response) : option string :=
  match body r with Json b => type b | Streamed _ => None end.

Definition response_details (r : Response) : option string :=
  match body r with Json b => details b | Streamed _ => None end.

Definition response_error (r : Response) : option string :=
  match body r with Json b => Some (error b) | Streamed _ => None end.

(** [req.json()] resolved and [messages] could be taken from the result. *)
Definition body_read (req_json : completion RequestBody) : bool :=
  match req_json with
  | Normal (BodyValue _) => true
  | _ => false
  end.

(** Whether a trace contains a call to the provider. *)
Definition is_provider_call (e : effect) : bool :=
  match e with ProviderCall _ => true | ConsoleError _ _ => false end.

Definition calls_provider (t : list effect) : bool := existsb is_provider_call t.

(** ** The classification as the specification words it

    An ordered table of rules, each a condition on the upstream error with the
    status and type it answers; the first rule whose condition holds is
    applied, and when none does the answer is 500, [generic_error], with the
    raw detail. *)

Definition contains (needle : string) (e : JsError.t) : bool :=
  match JsError.message e with
  | Some m => JsString.includes needle m
  | None => false
  end.

Definition upstream_status (n : Z) (e : JsError.t) : bool :=
  match JsError.status e with
  | Some s => Z.eqb s n
  | None => false
  end.

Record rule : Type :=
  { applies : JsError.t -> bool; http : Z; kind : string; text : string }.

Definition rules : list rule :=
  [ {| applies := fun e => contains "quota" e || contains "exceeded" e;
       http := 429; kind := "quota_exceeded";
       text := "API quota exceeded. Please check your Google AI billing plan or try again later." |};
    {| applies := fun e => contains "rate limit" e || upstream_status 429 e;
       http := 429; kind := "rate_limit";
       text := "Rate limit exceeded. Please wait a moment before sending another message." |};
    {| applies := fun e => contains "authentication" e || upstream_status 401 e;
       http := 401; kind := "auth_error";
       text := "Invalid API key. Please check your Google Gemini API key configuration." |} ].

Definition classify_reference (e : JsError.t) : Response :=
  match find (fun r => applies r e) rules with
  | Some r =>
      json_response {| error := text r; type := Some (kind r); details := None |} (http r)
  | None =>
      json_response
        {| error := "An unexpected error occurred. Please try again later.";
           type := Some "generic_error";
           details := JsError.message e |}
        500
  end.

End Endpoint.

(* ================================================================== *)
(** * The tools declared to the provider *)
(* ================================================================== *)

Module Tools.

(** ** weather *)

(** [Math.round(x)]: the integer nearest to [x], a tie going up. *)
Definition Math_round (x : Q) : Z := Qfloor (x + (1 # 2))%Q.

(** [Math.floor(x)]. *)
Definition Math_floor (x : Q) : Z := Qfloor x.

(** [a[i]] for a number [i] that is an integer: [undefined] out of range. *)
Definition array_get {A} (a : list A) (i : Z) : option A :=
  if i <? 0 then None else nth_error a (Z.to_nat i).

Record WeatherResult : Type :=
  { location : string; temperature : Z; description : option string }.

Definition descriptions : list string := ["sunny"; "cloudy"; "rainy"; "snowy"].

(** [execute] of the weather tool. [random1] and [random2] are the values of
    the two calls of [Math.random()], in order. [fl] is the rounding that the
    number type applies to the result of a multiplication or an addition: the
    identity for real arithmetic, round-to-nearest for doubles. *)
Definition weather_execute (fl : Q -> Q) (random1 random2 : Q) (loc : string)
  : WeatherResult :=
  let temp := Math_round (fl (fl (random1 * (90 - 32)) + 32))%Q in
  {| location := loc;
     temperature := temp;
     description := array_get descriptions (Math_floor (fl (random2 * 4)%Q)) |}.

(** What the properties below need of the rounding [fl]: it is monotone, it
    leaves integers of magnitude at most 2^53 as they are, and it leaves
    four times a representable number of [0, 1) as it is (a change of
    exponent only). *)
Record rounding (fl : Q -> Q) : Prop :=
  { fl_monotone : forall a b : Q, (a <= b)%Q -> (fl a <= fl b)%Q;
    fl_integer : forall z : Z, Z.abs z <= 2 ^ 53 -> (fl (inject_Z z) == inject_Z z)%Q;
    fl_times_4 : forall q : Q,
        (fl q == q)%Q -> (0 <= q)%Q -> (q < 1)%Q -> (fl (q * 4) == q * 4)%Q }.

(** ** calculator *)

(** The values a call of a function built from text may return: an integer
    of magnitude at most 2^53, negative zero, or anything else. *)
Inductive js_value : Type :=
| VInt (z : Z)
| VNegZero
| VOther (repr : string).

(** [{ result }] or [{ error }]. *)
Inductive CalcResult : Type :=
| Result (result : js_value)
| Error (error : string).

Definition dquote : ascii := "034"%char.

(** The template literal [`"use strict"; return (${expression})`]. *)
Definition function_body (expression : string) : string :=
  String dquote ("use strict" ++ String dquote ("; return (" ++ expression ++ ")")).

(** [execute] of the calculator tool. [run body] is what [Function(body)()]
    does: the value returned, or the error thrown while building the function
    or while calling it. *)
Definition calculator_execute (run : string -> completion js_value) (expression : string)
  : completion CalcResult :=
  try_catch_c
    (match run (function_body expression) with
     | Normal result => Normal (Result result)
     | Throw e => Throw e
     end)
    (fun _ => Normal (Error "Invalid mathematical expression")).

End Tools.

(* ================================================================== *)
(** * Evaluation of arithmetic function bodies *)
(* ================================================================== *)

(** What the language runtime does with the text handed to [Function] by the
    calculator, on the fragment where it can be said exactly: a body that is
    the directive ["use strict";], a space, [return], a space and an
    expression [E] written with decimal integer literals, [+], [-], [*],
    parentheses and spaces, with at least one token, and where every number
    that occurs has magnitude at most 2^53 (so that doubles compute exactly).
    Outside the fragment the evaluator answers [None]: it says nothing of a
    body with another beginning, with [return] followed by anything but a
    space, or with nothing to return. *)
Module JsArith.

Inductive token : Type :=
| TNum (n : Z)
| TPlus
| TMinus
| TStar
| TLParen
| TRParen.

Definition is_digit (c : ascii) : bool :=
  let n := nat_of_ascii c in Nat.leb 48 n && Nat.leb n 57.

Definition digit_value (c : ascii) : Z := Z.of_nat (nat_of_ascii c) - 48.

Definition max_safe : Z := 2 ^ 53.

Definition in_range (z : Z) : bool := Z.abs z <=? max_safe.

(** The tokens of a punctuator or a space [c] that follows the code unit
    [prev]; [None] for a code unit outside the fragment and for the
    two-character operators [++], [--] and [**]. *)
Definition punctuator (c prev : ascii) : option (list token) :=
  if Ascii.eqb c " " then Some []
  else if Ascii.eqb c "+" then if Ascii.eqb prev "+" then None else Some [TPlus]
  else if Ascii.eqb c "-" then if Ascii.eqb prev "-" then None else Some [TMinus]
  else if Ascii.eqb c "*" then if Ascii.eqb prev "*" then None else Some [TStar]
  else if Ascii.eqb c "(" then Some [TLParen]
  else if Ascii.eqb c ")" then Some [TRParen]
  else None.

Definition flush (cur : option Z) (rest : list token) : list token :=
  match cur with
  | None => rest
  | Some n => TNum n :: rest
  end.

(** The tokens of [s]. [cur] is the literal being read, [prev] the code unit
    before [s]. A literal with a leading zero (an error in strict mode) and a
    literal above 2^53 are outside the fragment. *)
Fixpoint lex (s : string) (cur : option Z) (prev : ascii) : option (list token) :=
  match s with
  | EmptyString => Some (flush cur [])
  | String c s' =>
      if is_digit c then
        match cur with
        | None => lex s' (Some (digit_value c)) c
        | Some 0 => None
        | Some n =>
            let n' := 10 * n + digit_value c in
            if in_range n' then lex s' (Some n') c else None
        end
      else
        match punctuator c prev with
        | None => None
        | Some ts =>
            match lex s' None c with
            | None => None
            | Some rest => Some (flush cur (ts ++ rest)%list)
            end
        end
  end.

Inductive expr : Type :=
| ENum (n : Z)
| EPos (e : expr)
| ENeg (e : expr)
| EAdd (a b : expr)
| ESub (a b : expr)
| EMul (a b : expr)
| ECall0 (callee : expr)
| ECall1 (callee arg : expr).

Inductive presult : Type :=
| POk (e : expr) (rest : list token)
| PSyntaxError
| PFuel.

(** Recursive descent along the grammar of the language:
    additive, multiplicative, unary, call (a primary followed by argument
    lists), primary. *)
Fixpoint parse_additive (fuel : nat) (ts : list token) : presult :=
  match fuel with
  | O => PFuel
  | S f =>
      match parse_multiplicative f ts with
      | POk a rest => parse_additive_rest f a rest
      | r => r
      end
  end
with parse_additive_rest (fuel : nat) (lhs : expr) (ts : list token) : presult :=
  match fuel with
  | O => PFuel
  | S f =>
      match ts with
      | TPlus :: ts' =>
          match parse_multiplicative f ts' with
          | POk b rest => parse_additive_rest f (EAdd lhs b) rest
          | r => r
          end
      | TMinus :: ts' =>
          match parse_multiplicative f ts' with
          | POk b rest => parse_additive_rest f (ESub lhs b) rest
          | r => r
          end
      | _ => POk lhs ts
      end
  end
with parse_multiplicative (fuel : nat) (ts : list token) : presult :=
  match fuel with
  | O => PFuel
  | S f =>
      match parse_unary f ts with
      | POk a rest => parse_multiplicative_rest f a rest
      | r => r
      end
  end
with parse_multiplicative_rest (fuel : nat) (lhs : expr) (ts : list token) : presult :=
  match fuel with
  | O => PFuel
  | S f =>
      match ts with
      | TStar :: ts' =>
          match parse_unary f ts' with
          | POk b rest => parse_multiplicative_rest f (EMul lhs b) rest
          | r => r
          end
      | _ => POk lhs ts
      end
  end
with parse_unary (fuel : nat) (ts : list token) : presult :=
  match fuel with
  | O => PFuel
  | S f =>
      match ts with
      | TPlus :: ts' =>
          match parse_unary f ts' with
          | POk e rest => POk (EPos e) rest
          | r => r
          end
      | TMinus :: ts' =>
          match parse_unary f ts' with
          | POk e rest => POk (ENeg e) rest
          | r => r
          end
      | _ =>
          match parse_primary f ts with
          | POk e rest => parse_call_rest f e rest
          | r => r
          end
      end
  end
with parse_call_rest (fuel : nat) (callee : expr) (ts : list token) : presult :=
  match fuel with
  | O => PFuel
  | S f =>
      match ts with
      | TLParen :: TRParen :: ts' => parse_call_rest f (ECall0 callee) ts'
      | TLParen :: ts' =>
          match parse_additive f ts' with
          | POk a (TRParen :: rest) => parse_call_rest f (ECall1 callee a) rest
          | POk _ _ => PSyntaxError
          | r => r
          end
      | _ => POk callee ts
      end
  end
with parse_primary (fuel : nat) (ts : list token) : presult :=
  match fuel with
  | O => PFuel
  | S f =>
      match ts with
      | TNum n :: ts' => POk (ENum n) ts'
      | TLParen :: ts' =>
          match parse_additive f ts' with
          | POk e (TRParen :: rest) => POk e rest
          | POk _ _ => PSyntaxError
          | r => r
          end
      | _ => PSyntaxError
      end
  end.

(** Numbers of the fragment: an integer, or negative zero. *)
Inductive num : Type :=
| Int (z : Z)
| NegZero.

Inductive outcome : Type :=
| Value (v : num)
| SyntaxError
| TypeError.

Definition negate (a : num) : num :=
  match a with
  | Int 0 => NegZero
  | Int z => Int (- z)
  | NegZero => Int 0
  end.

Definition add (a b : num) : num :=
  match a, b with
  | NegZero, NegZero => NegZero
  | NegZero, Int z => Int z
  | Int z, NegZero => Int z
  | Int x, Int y => Int (x + y)
  end.

Definition is_negative (a : num) : bool :=
  match a with
  | Int z => z <? 0
  | NegZero => true
  end.

Definition magnitude (a : num) : Z :=
  match a with
  | Int z => Z.abs z
  | NegZero => 0
  end.

Definition mul (a b : num) : num :=
  let m := magnitude a * magnitude b in
  if xorb (is_negative a) (is_negative b)
  then (if m =? 0 then NegZero else Int (- m))
  else Int m.

Definition checked (a : num) : option outcome :=
  if in_range (magnitude a) then Some (Value a) else None.

Definition eval_binary (op : num -> num -> num) (ra rb : option outcome) : option outcome :=
  match ra with
  | Some (Value x) =>
      match rb with
      | Some (Value y) => checked (op x y)
      | r => r
      end
  | r => r
  end.

(** Evaluation, left to right. A call of a number throws a TypeError. *)
Fixpoint eval (e : expr) : option outcome :=
  match e with
  | ENum n => Some (Value (Int n))
  | EPos a => eval a
  | ENeg a =>
      match eval a with
      | Some (Value v) => Some (Value (negate v))
      | r => r
      end
  | EAdd a b => eval_binary add (eval a) (eval b)
  | ESub a b => eval_binary (fun x y => add x (negate y)) (eval a) (eval b)
  | EMul a b => eval_binary mul (eval a) (eval b)
  | ECall0 _ => Some TypeError
  | ECall1 _ _ => Some TypeError
  end.

(** [strip p s]: what follows the prefix [p] in [s]. *)
Fixpoint strip (p s : string) : option string :=
  match p with
  | EmptyString => Some s
  | String a p' =>
      match s with
      | EmptyString => None
      | String b s' => if Ascii.eqb a b then strip p' s' else None
      end
  end.

(** The beginning of the bodies of the fragment, the space after [return]
    included. *)
Definition directive_and_return : string :=
  String Tools.dquote ("use strict" ++ String Tools.dquote "; return ").

(** [Function(body)()] on the fragment. *)
Definition run_body (body : string) : option outcome :=
  match strip directive_and_return body with
  | None => None
  | Some src =>
      match lex src None " "%char with
      | None => None
      | Some [] => None
      | Some ts =>
          match parse_additive (8 * List.length ts + 8) ts with
          | POk e [] => eval e
          | POk _ (_ :: _) => Some SyntaxError
          | PSyntaxError => Some SyntaxError
          | PFuel => None
          end
      end
  end.

Definition to_value (v : num) : Tools.js_value :=
  match v with
  | Int z => Tools.VInt z
  | NegZero => Tools.VNegZero
  end.

(** A runtime [run] behaves as the language prescribes on the bodies the
    calculator builds, where they are in the fragment: it returns the value
    where evaluation gives one, and throws where evaluation fails. *)
Definition agrees (run : string -> completion Tools.js_value) : Prop :=
  forall expression : string,
    match run_body (Tools.function_body expression) with
    | Some (Value v) => run (Tools.function_body expression) = Normal (to_value v)
    | Some SyntaxError => exists e, run (Tools.function_body expression) = Throw e
    | Some TypeError => exists e, run (Tools.function_body expression) = Throw e
    | None => True
    end.

(** A runtime that follows the fragment and throws everywhere else. *)
Definition reference_run (body : string) : completion Tools.js_value :=
  match run_body body with
  | Some (Value v) => Normal (to_value v)
  | Some SyntaxError => Throw (JsError.mk (Some "SyntaxError") None)
  | Some TypeError => Throw (JsError.mk (Some "TypeError") None)
  | None => Throw (JsError.mk (Some "unsupported") None)
  end.

End JsArith.

(* ================================================================== *)
(** * The chat page: cooldown state, timer effect and [onSubmit] *)
(* ================================================================== *)

Module ChatPage.

Record UiMessage : Type := { id : string; role : string; content : string }.

(** What [useChat] holds. [requests] counts the requests the hook has sent
    to the endpoint. *)
Record UseChat : Type :=
  { messages : list UiMessage;
    input : string;
    isLoading : bool;
    error : option string;
    requests : nat }.

(** A pending [setTimeout] of the cooldown effect: the milliseconds left, and
    the value of [rateLimitCooldown] its callback closed over. *)
Record Timer : Type := { remaining : nat; captured : Z }.

(** The component: the hook, the two [useState] cells, the timeout of the
    cooldown effect (cleared and made again whenever [rateLimitCooldown]
    changes) and the timeouts that reset the typing indicator, each by the
    milliseconds left. *)
Record State : Type :=
  { chat : UseChat;
    isTyping : bool;
    rateLimitCooldown : Z;
    cooldownTimer : option Timer;
    typingTimers : list nat }.

Record FormEvent : Type := { defaultPrevented : bool }.

Definition preventDefault (e : FormEvent) : FormEvent := {| defaultPrevented := true |}.

Definition initial_chat : UseChat :=
  {| messages := []; input := ""; isLoading := false; error := None; requests := 0 |}.

(** The state after the first render: [useState(false)], [useState(0)], and
    the effect has found no cooldown to count down. *)
Definition initial : State :=
  {| chat := initial_chat;
     isTyping := false;
     rateLimitCooldown := 0;
     cooldownTimer := None;
     typingTimers := [] |}.

(** The body of the cooldown effect for the value [v] of [rateLimitCooldown]:
    a timeout of 1000 ms when [v > 0], none otherwise. *)
Definition cooldown_effect (v : Z) : option Timer :=
  if 0 <? v then Some {| remaining := 1000; captured := v |} else None.

(** [setRateLimitCooldown(v)]: setting the value it already has changes
    nothing; a new value is stored, the effect's timeout is cleared and the
    effect runs again. *)
Definition setRateLimitCooldown (v : Z) (s : State) : State :=
  if v =? rateLimitCooldown s then s
  else {| chat := chat s;
          isTyping := isTyping s;
          rateLimitCooldown := v;
          cooldownTimer := cooldown_effect v;
          typingTimers := typingTimers s |}.

Definition setIsTyping (b : bool) (s : State) : State :=
  {| chat := chat s;
     isTyping := b;
     rateLimitCooldown := rateLimitCooldown s;
     cooldownTimer := cooldownTimer s;
     typingTimers := typingTimers s |}.

Definition set_chat (c : UseChat) (s : State) : State :=
  {| chat := c;
     isTyping := isTyping s;
     rateLimitCooldown := rateLimitCooldown s;
     cooldownTimer := cooldownTimer s;
     typingTimers := typingTimers s |}.

(** [setTimeout(() => setIsTyping(false), ms)]. *)
Definition schedule_typing_reset (ms : nat) (s : State) : State :=
  {| chat := chat s;
     isTyping := isTyping s;
     rateLimitCooldown := rateLimitCooldown s;
     cooldownTimer := cooldownTimer s;
     typingTimers := (typingTimers s ++ [ms])%list |}.

(** [!input.trim() || rateLimitCooldown > 0]. *)
Definition submit_rejected (s : State) : bool :=
  negb (JsString.truthy (JsString.trim (input (chat s)))) || (0 <? rateLimitCooldown s).

(** [onSubmit(e)]. [handleSubmit] is the hook's own submit function, as a
    change of the hook's state. *)
Definition onSubmit (handleSubmit : UseChat -> UseChat) (e : FormEvent) (s : State)
  : FormEvent * State :=
  let e := preventDefault e in
  if submit_rejected s then (e, s)
  else
    let s := setIsTyping true s in
    let s := set_chat (handleSubmit (chat s)) s in
    let s := setRateLimitCooldown 3 s in
    let s := schedule_typing_reset 1000 s in
    (e, s).

(** The [disabled] attribute of the send button. *)
Definition button_disabled (s : State) : bool :=
  isLoading (chat s)
  || negb (JsString.truthy (JsString.trim (input (chat s))))
  || (0 <? rateLimitCooldown s).

(** The [disabled] attribute of the input field. *)
Definition input_disabled (s : State) : bool :=
  isLoading (chat s) || (0 <? rateLimitCooldown s).

(** ** Time *)

(** One millisecond passes for the timeout of the cooldown effect. When it
    is due its callback runs: [setRateLimitCooldown(rateLimitCooldown - 1)]
    with the value the callback closed over. *)
Definition tick_cooldown (s : State) : State :=
  match cooldownTimer s with
  | None => s
  | Some t =>
      match remaining t with
      | S (S r) =>
          {| chat := chat s;
             isTyping := isTyping s;
             rateLimitCooldown := rateLimitCooldown s;
             cooldownTimer := Some {| remaining := S r; captured := captured t |};
             typingTimers := typingTimers s |}
      | _ =>
          setRateLimitCooldown (captured t - 1)
            {| chat := chat s;
               isTyping := isTyping s;
               rateLimitCooldown := rateLimitCooldown s;
               cooldownTimer := None;
               typingTimers := typingTimers s |}
      end
  end.

Definition due (ms : nat) : bool := Nat.leb ms 1.

(** One millisecond passes for the timeouts of the typing indicator; one
    that is due runs [setIsTyping(false)]. *)
Definition tick_typing (s : State) : State :=
  {| chat := chat s;
     isTyping := if existsb due (typingTimers s) then false else isTyping s;
     rateLimitCooldown := rateLimitCooldown s;
     cooldownTimer := cooldownTimer s;
     typingTimers := map Nat.pred (filter (fun ms => negb (due ms)) (typingTimers s)) |}.

(** One millisecond passes. *)
Definition tick (s : State) : State := tick_cooldown (tick_typing s).

(** What can happen to the mounted component: a millisecond passes, the form
    is submitted, the draft is changed ([handleInputChange]), or the hook
    changes its own state (a chunk arrives, the request ends or fails). *)
Inductive event : Type :=
| Tick
| Submit (e : FormEvent)
| InputChange (value : string)
| ChatUpdate (f : UseChat -> UseChat).

Definition handleInputChange (value : string) (c : UseChat) : UseChat :=
  {| messages := messages c;
     input := value;
     isLoading := isLoading c;
     error := error c;
     requests := requests c |}.

Definition step (handleSubmit : UseChat -> UseChat) (s : State) (ev : event) : State :=
  match ev with
  | Tick => tick s
  | Submit e => snd (onSubmit handleSubmit e s)
  | InputChange v => set_chat (handleInputChange v (chat s)) s
  | ChatUpdate f => set_chat (f (chat s)) s
  end.

Definition run (handleSubmit : UseChat -> UseChat) (evs : list event) (s : State) : State :=
  fold_left (step handleSubmit) evs s.

(** The milliseconds that pass during [evs]. *)
Definition elapsed (evs : list event) : nat :=
  List.length (filter (fun ev => match ev with Tick => true | _ => false end) evs).

(** A stand-in for the hook's [handleSubmit] in concrete runs: the draft
    becomes a user message, the draft is cleared and a request is sent. The
    properties below hold for every [handleSubmit]. *)
Definition sdk_handleSubmit (c : UseChat) : UseChat :=
  {| messages := (messages c ++ [{| id := ""; role := "user"; content := input c |}])%list;
     input := "";
     isLoading := true;
     error := None;
     requests := S (requests c) |}.

(** ** Invariants of the cooldown *)

(** The counter is not negative, and a pending timeout of the effect closed
    over the current, positive value of the counter. *)
Definition cooldown_invariant (s : State) : Prop :=
  0 <= rateLimitCooldown s /\
  forall t, cooldownTimer s = Some t ->
            captured t = rateLimitCooldown s /\ 0 < rateLimitCooldown s.

(** The state of the cooldown [t] milliseconds after an accepted submission,
    for [t] below 3000: one unit is gone per full second, and the timeout of
    the effect has the rest of the current second to run. *)
Definition counting_down (t : nat) (s : State) : Prop :=
  rateLimitCooldown s = 3 - Z.of_nat (t / 1000) /\
  cooldownTimer s
  = Some {| remaining := 1000 - t mod 1000; captured := 3 - Z.of_nat (t / 1000) |}.

End ChatPage.

(* ================================================================== *)
(** * The endpoint's effects and the text of its answers *)
(* ================================================================== *)

Module EndpointLog.
Import Endpoint.

(** The settings of the calls to the provider in a trace, in order. *)
Definition provider_calls (t : list effect) : list CallSettings :=
  flat_map (fun e => match e with ProviderCall c => [c] | ConsoleError _ _ => [] end) t.

(** The errors written with [console.error] in a trace, in order. *)
Definition logged (t : list effect) : list (string * thrown) :=
  flat_map (fun e => match e with ConsoleError l x => [(l, x)] | ProviderCall _ => [] end) t.

End EndpointLog.

(** [JSON.stringify] of the objects the handler answers with: the properties
    in the order of the object literal, a property that is [undefined] left
    out, no white space, and strings quoted as the language prescribes. *)
Module Json.
Import Endpoint.

Definition backslash : ascii := "092"%char.

Definition hex_digit (n : nat) : ascii :=
  nth n ["0"; "1"; "2"; "3"; "4"; "5"; "6"; "7"; "8"; "9";
         "a"; "b"; "c"; "d"; "e"; "f"]%char "0"%char.

(** The text for one code unit inside a quoted string: the two-character
    escapes for backspace, tab, line feed, form feed, carriage return, the
    double quote and the backslash; a [u] escape with four hexadecimal
    digits for the other code units below 32; the code unit itself
    otherwise. *)
Definition escape_char (c : ascii) : string :=
  let n := nat_of_ascii c in
  if Nat.eqb n 8 then String backslash "b"
  else if Nat.eqb n 9 then String backslash "t"
  else if Nat.eqb n 10 then String backslash "n"
  else if Nat.eqb n 12 then String backslash "f"
  else if Nat.eqb n 13 then String backslash "r"
  else if Nat.eqb n 34 then String backslash (String Tools.dquote "")
  else if Nat.eqb n 92 then String backslash (String backslash "")
  else if Nat.ltb n 32 then
    String backslash
      (String "u" (String "0" (String "0"
         (String (hex_digit (Nat.div n 16)) (String (hex_digit (Nat.modulo n 16)) "")))))
  else String c "".

Fixpoint escape (s : string) : string :=
  match s with
  | EmptyString => EmptyString
  | String c s' => escape_char c ++ escape s'
  end.

Definition quote (s : string) : string :=
  String Tools.dquote (escape s ++ String Tools.dquote "").

Definition member (key value : string) : string :=
  quote key ++ ":" ++ quote value.

Definition optional_member (key : string) (value : option string) : string :=
  match value with
  | Some v => "," ++ member key v
  | None => ""
  end.

(** [JSON.stringify({ error, type, details })]. *)
Definition stringify (b : ErrorBody) : string :=
  "{" ++ member "error" (error b)
      ++ optional_member "type" (type b)
      ++ optional_member "details" (details b)
      ++ "}".

(** A needle without double quote and backslash: quoting does not touch
    its code units. *)
Fixpoint plain_needle (n : string) : bool :=
  match n with
  | EmptyString => true
  | String a n' =>
      negb (Ascii.eqb a Tools.dquote) && negb (Ascii.eqb a backslash) && plain_needle n'
  end.

(** The text of the body of a JSON answer. *)
Definition response_text (r : Response) : option string :=
  match body r with
  | Json b => Some (stringify b)
  | Streamed _ => None
  end.

End Json.

(* ================================================================== *)
(** * The chat page: how an error is shown *)
(* ================================================================== *)

Module ChatErrors.

Record Toast : Type :=
  { title : string; description : string; variant : string }.

(** The toast of the [onError] callback of [useChat]. *)
Definition onError (error : JsError.t) : Toast :=
  if Endpoint.message_includes error "quota" then
    {| title := "Quota Exceeded";
       description := "Your API quota has been exceeded. Please check your billing plan.";
       variant := "destructive" |}
  else if Endpoint.message_includes error "rate limit" then
    {| title := "Rate Limited";
       description := "Please wait a moment before sending another message.";
       variant := "destructive" |}
  else
    {| title := "Error";
       description := "Something went wrong. Please try again.";
       variant := "destructive" |}.

(** The text of the alert shown while the hook holds an error. *)
Definition alert_description (error : JsError.t) : string :=
  if Endpoint.message_includes error "quota" then
    "API quota exceeded. Please check your Google AI billing plan or try again later."
  else if Endpoint.message_includes error "rate limit" then
    "Rate limit exceeded. Please wait before sending another message."
  else
    "Unable to connect to AI service. Please check your internet connection and try again.".

(** An error of the hook whose message is the given text. *)
Definition error_with_message (text : string) : JsError.t :=
  JsError.mk (Some text) None.

End ChatErrors.

(* ================================================================== *)
(** * The chat page: phases of the cooldown and accepted submissions *)
(* ================================================================== *)

Module ChatPagePhases.
Import ChatPage.

(** No cooldown is running and no timeout is pending. *)
Definition idle (s : State) : Prop :=
  rateLimitCooldown s = 0 /\
  cooldownTimer s = None /\
  typingTimers s = [] /\
  isTyping s = false.

(** The state [t] milliseconds after an accepted submission, for [t] below
    3000: the cooldown counts down, and during the first second the typing
    indicator is on with its one timeout pending. *)
Definition phase (t : nat) (s : State) : Prop :=
  counting_down t s /\
  ((t < 1000)%nat /\ typingTimers s = [(1000 - t)%nat] /\ isTyping s = true
   \/
   (1000 <= t)%nat /\ typingTimers s = [] /\ isTyping s = false).

Definition page_invariant (s : State) : Prop :=
  idle s \/ exists t, (t < 3000)%nat /\ phase t s.

(** The number of submissions in [evs], run from [s], that [onSubmit]
    accepts: the number of calls of the hook's [handleSubmit]. *)
Fixpoint accepted (handleSubmit : UseChat -> UseChat) (evs : list event) (s : State) : nat :=
  match evs with
  | [] => 0
  | ev :: evs' =>
      (match ev with
       | Submit _ => if submit_rejected s then 0 else 1
       | _ => 0
       end
       + accepted handleSubmit evs' (step handleSubmit s ev))%nat
  end.

End ChatPagePhases.

(* ================================================================== *)
(** * Values of the pseudo-random source *)
(* ================================================================== *)

Module RandomValues.

(** The rounding [fl] leaves the multiples of 1/128 with a numerator of
    magnitude at most 2^53 as they are. Round-to-nearest doubles do: such a
    number is a significand of at most 53 bits with a change of exponent. *)
Definition exact_on_128ths (fl : Q -> Q) : Prop :=
  forall n : Z, Z.abs n <= 2 ^ 53 ->
                (fl (inject_Z n * (1 # 128)) == inject_Z n * (1 # 128))%Q.

(** The number of 128ths that gives the temperature [t]: the nearest to
    [(t - 32) / 58] that stays below 1. *)
Definition numerator_for (t : Z) : Z := Z.min 127 (((t - 32) * 128 + 29) / 58).

End RandomValues.

(* ================================================================== *)
(** * Concrete inputs used below *)
(* ================================================================== *)

Module Samples.
Import Endpoint.

(** An upstream error with status 429 whose message speaks of the quota and
    not of a rate limit. *)
Definition quota_with_429 : JsError.t :=
  JsError.mk (Some "You exceeded your current quota") (Some 429).

(** An upstream error that speaks of a rate limit, with the word "exceeded". *)
Definition rate_limit_exceeded : JsError.t :=
  JsError.mk (Some "rate limit exceeded") None.

(** [new Error()]: the message is the empty string. *)
Definition empty_message : JsError.t := JsError.mk (Some "") None.

(** An error with status 429 and a plain message. *)
Definition too_many_requests : JsError.t :=
  JsError.mk (Some "Too Many Requests") (Some 429).

(** An error no rule recognises. *)
Definition network_down : JsError.t := JsError.mk (Some "fetch failed") None.

(** The SyntaxError of [req.json()] for the request text [quota]. *)
Definition bad_json : JsError.t :=
  JsError.mk
    (Some ("Unexpected token 'q', " ++ String Tools.dquote ("quota" ++ String Tools.dquote " is not valid JSON")))
    None.

(** A provider that answers every call with one chunk. *)
Definition echo_sdk : Sdk :=
  {| streamText := fun _ => Normal ["ok"];
     toAIStreamResponse := fun s =>
       Normal {| status := 200; headers := []; body := Streamed s |} |}.

(** The page with a draft typed in and no cooldown. *)
Definition draft_hi : ChatPage.State :=
  ChatPage.set_chat (ChatPage.handleInputChange "hi" ChatPage.initial_chat) ChatPage.initial.

(** The page with a draft of spaces only. *)
Definition draft_blank : ChatPage.State :=
  ChatPage.set_chat (ChatPage.handleInputChange "   " ChatPage.initial_chat) ChatPage.initial.

Definition submit_event : ChatPage.FormEvent := {| ChatPage.defaultPrevented := false |}.

End Samples.

(* ================================================================== *)
(** * Properties of strings *)
(* ================================================================== *)

Section StringFacts.

Lemma starts_with_iff_append (p s : string) :
  JsString.starts_with p s = true <-> exists post, s = p ++ post.
Proof.
  revert s; induction p as [|a p IH]; intros s; simpl.
  - split; [intros _; now exists s | reflexivity].
  - destruct s as [|b s].
    + split; [discriminate | intros [post H]; discriminate].
    + rewrite andb_true_iff, Ascii.eqb_eq, IH. split.
      * intros [-> [post ->]]. now exists post.
      * intros [post H]. inversion H. split; [reflexivity | now exists post].
Qed.

(** [includes] finds exactly the strings that occur inside [s]. *)
Lemma includes_iff_occurs (needle s : string) :
  JsString.includes needle s = true <->
  exists pre post, s = pre ++ needle ++ post.
Proof.
  induction s as [|c s IH]; simpl.
  - rewrite orb_false_r, starts_with_iff_append. split.
    + intros [post H]. now exists "", post.
    + intros [pre [post H]]. destruct pre; simpl in H.
      * now exists post.
      * discriminate.
  - rewrite orb_true_iff, IH, starts_with_iff_append. split.
    + intros [[post H] | [pre [post H]]].
      * now exists "", post.
      * exists (String c pre), post. simpl. now rewrite H.
    + intros [pre [post H]]. destruct pre as [|d pre]; simpl in H.
      * left. now exists post.
      * right. inversion H. now exists pre, post.
Qed.

(** A string trims to nothing exactly when it is white space throughout. *)
Lemma trim_start_white (s : string) :
  JsString.all_white_space s = true -> JsString.trim_start s = "".
Proof.
  induction s as [|c s IH]; simpl; [reflexivity|].
  intros H. apply andb_true_iff in H as [Hc Hs]. rewrite Hc. auto.
Qed.

Lemma trim_white (s : string) :
  JsString.all_white_space s = true -> JsString.trim s = "".
Proof.
  intros H. unfold JsString.trim. now rewrite trim_start_white.
Qed.

Lemma trim_start_empty (s : string) :
  JsString.trim_start s = "" -> JsString.all_white_space s = true.
Proof.
  induction s as [|c s IH]; simpl; [reflexivity|].
  destruct (JsString.is_white_space c); [exact IH | discriminate].
Qed.

(** What [trim_start] leaves does not begin with white space. *)
Lemma trim_start_head (s : string) :
  match JsString.trim_start s with
  | EmptyString => True
  | String c _ => JsString.is_white_space c = false
  end.
Proof.
  induction s as [|c s IH]; simpl; [exact I|].
  destruct (JsString.is_white_space c) eqn:E; [exact IH | exact E].
Qed.

Lemma trim_end_empty (s : string) :
  JsString.trim_end s = "" -> JsString.all_white_space s = true.
Proof.
  induction s as [|c s IH]; simpl; [reflexivity|].
  destruct (JsString.trim_end s) as [|d t]; [|discriminate].
  destruct (JsString.is_white_space c); [intros _; now apply IH | discriminate].
Qed.

(** [!s.trim()] holds exactly of the strings that are empty or white space
    only. *)
Lemma not_trim_iff_white (s : string) :
  negb (JsString.truthy (JsString.trim s)) = JsString.all_white_space s.
Proof.
  destruct (JsString.all_white_space s) eqn:W.
  - now rewrite trim_white.
  - destruct (JsString.trim s) as [|c t] eqn:T; [|reflexivity].
    exfalso. unfold JsString.trim in T. apply trim_end_empty in T.
    pose proof (trim_start_head s) as Hh.
    destruct (JsString.trim_start s) as [|d r] eqn:Ts.
    + apply trim_start_empty in Ts. congruence.
    + simpl in T. rewrite Hh in T. discriminate.
Qed.

End StringFacts.

(* ================================================================== *)
(** * Properties of the chat endpoint *)
(* ================================================================== *)

Section EndpointProperties.
Import Endpoint.

(** The conditions of the reference table are those of the handler. *)
Lemma contains_message_includes (needle : string) (e : JsError.t) :
  contains needle e = message_includes e needle.
Proof. reflexivity. Qed.

Lemma upstream_status_is (n : Z) (e : JsError.t) :
  upstream_status n e = status_is e n.
Proof. reflexivity. Qed.

(** What the handler does when its [try] block throws: the log line, then
    what the classification of the caught value comes to. *)
Lemma POST_of_thrown (sdk : Sdk) (key : option string) (req : completion RequestBody)
      (v : thrown) :
  outcome (POST_try sdk key req) = Throw v ->
  POST sdk key req =
    ((trace (POST_try sdk key req) ++ [ConsoleError "Chat API Error:" v])%list,
     classify_thrown v).
Proof.
  unfold POST, outcome, trace. destruct (POST_try sdk key req) as [t c]; simpl.
  intros ->. reflexivity.
Qed.

(** What the handler answers when its [try] block throws an error object. *)
Lemma POST_of_throw (sdk : Sdk) (key : option string) (req : completion RequestBody)
      (e : JsError.t) :
  outcome (POST_try sdk key req) = Throw e ->
  POST sdk key req =
    ((trace (POST_try sdk key req) ++ [ConsoleError "Chat API Error:" e])%list,
     Normal (classify e)).
Proof.
  intros H. now rewrite (POST_of_thrown _ _ _ _ H).
Qed.

(** What the handler answers when its [try] block completes. *)
Lemma POST_of_normal (sdk : Sdk) (key : option string) (req : completion RequestBody)
      (r : Response) :
  outcome (POST_try sdk key req) = Normal r ->
  POST sdk key req = (trace (POST_try sdk key req), Normal r).
Proof.
  unfold POST, outcome, trace. destruct (POST_try sdk key req) as [t c]; simpl.
  intros ->. reflexivity.
Qed.

(** Without a key the [try] block does not reach the provider. *)
Lemma POST_try_without_key (sdk : Sdk) (key : option string) (req : completion RequestBody) :
  env_truthy key = false ->
  trace (POST_try sdk key req) = [].
Proof.
  intros Hk. unfold POST_try. rewrite Hk. simpl.
  destruct req as [[|m]|e]; reflexivity.
Qed.

(** The handler completes with a response when its [try] block throws
    nothing but error objects. *)
Lemma POST_returns (sdk : Sdk) (key : option string) (req : completion RequestBody) :
  throws_error_objects sdk key req ->
  exists r, outcome (POST sdk key req) = Normal r.
Proof.
  intros Hobj. destruct (outcome (POST_try sdk key req)) as [r|v] eqn:H.
  - exists r. now rewrite (POST_of_normal _ _ _ _ H).
  - destruct (Hobj v H) as [e ->].
    exists (classify e). now rewrite (POST_of_throw _ _ _ _ H).
Qed.

(** A caught [null], [undefined] or odd message makes the [catch] block
    throw: the call logs its line and then rejects. *)
Lemma POST_rejects_when_catch_throws (sdk : Sdk) (key : option string) (v : thrown) :
  (forall e : JsError.t, v <> ErrorObject e) ->
  trace (POST sdk key (Throw v)) = [ConsoleError "Chat API Error:" v] /\
  exists err, outcome (POST sdk key (Throw v)) = Throw err.
Proof.
  intros Hv. destruct v as [| |e|]; try (split; [reflexivity | eexists; reflexivity]).
  exfalso. now apply (Hv e).
Qed.

(** The four answers of the [catch] block, by the first condition that
    holds. *)
Lemma classify_cases (e : JsError.t) :
  (message_includes e "quota" || message_includes e "exceeded" = true /\
   status (classify e) = 429 /\ response_type (classify e) = Some "quota_exceeded") \/
  (message_includes e "quota" || message_includes e "exceeded" = false /\
   message_includes e "rate limit" || status_is e 429 = true /\
   status (classify e) = 429 /\ response_type (classify e) = Some "rate_limit") \/
  (message_includes e "quota" || message_includes e "exceeded" = false /\
   message_includes e "rate limit" || status_is e 429 = false /\
   message_includes e "authentication" || status_is e 401 = true /\
   status (classify e) = 401 /\ response_type (classify e) = Some "auth_error") \/
  (message_includes e "quota" || message_includes e "exceeded" = false /\
   message_includes e "rate limit" || status_is e 429 = false /\
   message_includes e "authentication" || status_is e 401 = false /\
   status (classify e) = 500 /\ response_type (classify e) = Some "generic_error" /\
   response_details (classify e) = JsError.message e).
Proof.
  unfold classify.
  destruct (message_includes e "quota" || message_includes e "exceeded");
    [left; repeat split; reflexivity|].
  destruct (message_includes e "rate limit" || status_is e 429);
    [right; left; repeat split; reflexivity|].
  destruct (message_includes e "authentication" || status_is e 401);
    [right; right; left; repeat split; reflexivity|].
  right; right; right; repeat split; reflexivity.
Qed.

(** C1. The classification of the handler is the ordered reference
    classification: for every upstream error (message present or not, status
    present or not) the [catch] block answers what the first applicable rule
    of the table answers, and the generic 500 answer with the raw message
    when no rule applies; and that is the response of [POST], after one log
    line, both when reading the request throws the error and when the call
    to the provider does. *)
Theorem classification_is_ordered_reference :
  forall e : JsError.t,
    classify e = classify_reference e /\
    (forall sdk key,
        POST sdk key (Throw e)
        = ([ConsoleError "Chat API Error:" e], Normal (classify_reference e))) /\
    (forall to_response c key msgs,
        POST {| streamText := fun _ => Throw e; toAIStreamResponse := to_response |}
             (Some (String c key)) (Normal (BodyValue msgs))
        = ([ProviderCall (settings msgs); ConsoleError "Chat API Error:" e],
           Normal (classify_reference e))).
Proof.
  intros e.
  assert (Hc : classify e = classify_reference e).
  { unfold classify, classify_reference, rules. cbn [find applies].
    rewrite !contains_message_includes, !upstream_status_is.
    destruct (message_includes e "quota" || message_includes e "exceeded");
      [reflexivity|].
    destruct (message_includes e "rate limit" || status_is e 429);
      [reflexivity|].
    destruct (message_includes e "authentication" || status_is e 401);
      reflexivity. }
  split; [exact Hc|]. split.
  - intros sdk key. unfold POST, POST_try, POST_catch. simpl. now rewrite Hc.
  - intros to_response c key msgs. unfold POST, POST_try, POST_catch. simpl.
    now rewrite Hc.
Qed.

(** C2, as stated, fails: an upstream error with status 429 whose message
    contains "quota" and does not contain "rate limit" (so the two
    substrings are not both present) is answered with type [quota_exceeded],
    not [rate_limit]: the first rule applies whenever its own condition
    holds. *)
Lemma status_429_with_quota_message_answered_as_quota :
  message_includes Samples.quota_with_429 "rate limit"
  || status_is Samples.quota_with_429 429 = true /\
  message_includes Samples.quota_with_429 "rate limit" = false /\
  ~ (message_includes Samples.quota_with_429 "quota" = true /\
     message_includes Samples.quota_with_429 "rate limit" = true) /\
  response_type (classify Samples.quota_with_429) = Some "quota_exceeded" /\
  response_type (classify Samples.quota_with_429) <> Some "rate_limit".
Proof.
  repeat split; try reflexivity.
  - intros [_ H]. discriminate.
  - discriminate.
Qed.

(** The same happens to the message "rate limit exceeded", through the word
    "exceeded". *)
Lemma rate_limit_exceeded_answered_as_quota :
  message_includes Samples.rate_limit_exceeded "rate limit" = true /\
  message_includes Samples.rate_limit_exceeded "quota" = false /\
  response_type (classify Samples.rate_limit_exceeded) = Some "quota_exceeded".
Proof. repeat split. Qed.

(** C2, amended. For every upstream error whose message contains
    "rate limit" or whose status is 429, the response has status 429; its
    type is [rate_limit] when the message contains neither "quota" nor
    "exceeded", and [quota_exceeded] when it contains one of them. *)
Theorem rate_limit_answer :
  forall e : JsError.t,
    message_includes e "rate limit" || status_is e 429 = true ->
    status (classify e) = 429 /\
    response_type (classify e) =
      Some (if message_includes e "quota" || message_includes e "exceeded"
            then "quota_exceeded" else "rate_limit").
Proof.
  intros e H. unfold classify.
  destruct (message_includes e "quota" || message_includes e "exceeded");
    [split; reflexivity|].
  rewrite H. split; reflexivity.
Qed.

Lemma rate_limit_answer_witness :
  message_includes Samples.too_many_requests "rate limit"
  || status_is Samples.too_many_requests 429 = true /\
  status (classify Samples.too_many_requests) = 429 /\
  response_type (classify Samples.too_many_requests) = Some "rate_limit".
Proof.
  split; [reflexivity|].
  exact (rate_limit_answer Samples.too_many_requests eq_refl).
Defined.

(** C6, as stated, fails: an error whose message is the empty string is
    not classified as quota, rate limit or authentication, and its [details]
    is the empty string. *)
Lemma empty_message_gives_empty_details :
  response_type (classify Samples.empty_message) <> Some "quota_exceeded" /\
  response_type (classify Samples.empty_message) <> Some "rate_limit" /\
  response_type (classify Samples.empty_message) <> Some "auth_error" /\
  status (classify Samples.empty_message) = 500 /\
  response_type (classify Samples.empty_message) = Some "generic_error" /\
  response_details (classify Samples.empty_message) = Some "".
Proof. repeat split; try reflexivity; discriminate. Qed.

(** C6, amended. For every upstream error not classified as
    [quota_exceeded], [rate_limit] or [auth_error], the response has status
    500 and type [generic_error], and its [details] is the upstream message
    as it is: non-empty exactly when that message is a non-empty string. *)
Theorem generic_error_answer :
  forall e : JsError.t,
    response_type (classify e) <> Some "quota_exceeded" ->
    response_type (classify e) <> Some "rate_limit" ->
    response_type (classify e) <> Some "auth_error" ->
    status (classify e) = 500 /\
    response_type (classify e) = Some "generic_error" /\
    response_details (classify e) = JsError.message e /\
    (forall d, JsError.message e = Some d -> d <> "" ->
               exists d', response_details (classify e) = Some d' /\ d' <> "").
Proof.
  intros e Hq Hr Ha.
  destruct (classify_cases e) as [[_ [_ H]] | [[_ [_ [_ H]]] | [[_ [_ [_ [_ H]]]] | H]]].
  - contradiction.
  - contradiction.
  - contradiction.
  - destruct H as [_ [_ [_ [Hs [Ht Hd]]]]].
    repeat split; try assumption.
    intros d Hm Hne. exists d. split; [congruence | assumption].
Qed.

Lemma generic_error_answer_witness :
  status (classify Samples.network_down) = 500 /\
  response_type (classify Samples.network_down) = Some "generic_error" /\
  response_details (classify Samples.network_down) = Some "fetch failed".
Proof.
  assert (H1 : response_type (classify Samples.network_down) <> Some "quota_exceeded")
    by (vm_compute; discriminate).
  assert (H2 : response_type (classify Samples.network_down) <> Some "rate_limit")
    by (vm_compute; discriminate).
  assert (H3 : response_type (classify Samples.network_down) <> Some "auth_error")
    by (vm_compute; discriminate).
  destruct (generic_error_answer Samples.network_down H1 H2 H3) as [Hs [Ht [Hd _]]].
  repeat split; assumption.
Defined.

(** C3, as stated, fails: with no key configured, a request whose text is
    not JSON makes [req.json()] throw before the key is looked at, and the
    error goes through the classification; when its message contains "quota"
    the response has status 429. *)
Lemma missing_key_unreadable_body_answers_429 :
  env_truthy None = false /\
  exists r,
    outcome (POST Samples.echo_sdk None (Throw Samples.bad_json)) = Normal r /\
    status r = 429 /\
    status r <> 500.
Proof.
  split; [reflexivity|].
  eexists. split; [reflexivity|]. split; [reflexivity | discriminate].
Qed.

(** C3, amended. If no key is configured (the variable is unset or empty),
    no call of the endpoint reaches the provider, and every call whose
    request body was read returns status 500 with the message that the key
    is not configured, having done nothing else. *)
Theorem missing_key_fails_fast :
  forall (sdk : Sdk) (key : option string) (req : completion RequestBody),
    env_truthy key = false ->
    calls_provider (trace (POST sdk key req)) = false /\
    (body_read req = true ->
     POST sdk key req = ([], Normal missing_key_response)) /\
    status missing_key_response = 500 /\
    response_error missing_key_response =
      Some "API key not configured. Please add your Google Gemini API key to environment variables.".
Proof.
  intros sdk key req Hk. split; [|split; [|split; reflexivity]].
  - pose proof (POST_try_without_key sdk key req Hk) as Ht.
    destruct (outcome (POST_try sdk key req)) as [r|e] eqn:H.
    + rewrite (POST_of_normal _ _ _ _ H), Ht. reflexivity.
    + rewrite (POST_of_thrown _ _ _ _ H), Ht. reflexivity.
  - intros Hb. destruct req as [[|m]|e]; try discriminate.
    unfold POST, POST_try. rewrite Hk. reflexivity.
Qed.

Lemma missing_key_fails_fast_witness :
  env_truthy (Some "") = false /\
  calls_provider
    (trace (POST Samples.echo_sdk (Some "") (Normal (BodyValue (Some []))))) = false /\
  POST Samples.echo_sdk (Some "") (Normal (BodyValue (Some [])))
  = ([], Normal missing_key_response).
Proof.
  split; [reflexivity|].
  destruct (missing_key_fails_fast Samples.echo_sdk (Some "")
              (Normal (BodyValue (Some []))) eq_refl) as [Hc [Hr _]].
  split; [exact Hc | exact (Hr eq_refl)].
Defined.




End EndpointProperties.

(* ================================================================== *)
(** * Properties of the tools *)
(* ================================================================== *)

Section ToolProperties.
Import Tools.

(** The calculator completes normally whatever the runtime does. *)
Lemma calculator_execute_returns (run : string -> completion js_value) (expression : string) :
  exists r, calculator_execute run expression = Normal r.
Proof.
  unfold calculator_execute.
  destruct (run (function_body expression)) as [v|e]; simpl; eauto.
Qed.

(** An error thrown by the evaluation becomes the error result. *)
Lemma calculator_execute_catches (run : string -> completion js_value)
      (expression : string) (e : thrown) :
  run (function_body expression) = Throw e ->
  calculator_execute run expression = Normal (Error "Invalid mathematical expression").
Proof.
  intros H. unfold calculator_execute. now rewrite H.
Qed.

(** A value returned by the evaluation becomes the result. *)
Lemma calculator_execute_value (run : string -> completion js_value)
      (expression : string) (v : js_value) :
  run (function_body expression) = Normal v ->
  calculator_execute run expression = Normal (Result v).
Proof.
  intros H. unfold calculator_execute. now rewrite H.
Qed.

Lemma reference_run_agrees : JsArith.agrees JsArith.reference_run.
Proof.
  intros expression. unfold JsArith.reference_run.
  destruct (JsArith.run_body (function_body expression)) as [[v| |]|];
    first [reflexivity | eexists; reflexivity | exact I].
Qed.

(** C4. With a runtime that evaluates arithmetic as the language
    prescribes, the calculator returns [{result: 360}] for "15 * 24" and
    [{error: "Invalid mathematical expression"}] for "1 +"; for every
    expression it completes with a result object, never with an exception;
    and whenever the evaluation throws, the result object is that error
    object. *)
Theorem calculator_contract :
  forall run : string -> completion js_value,
    JsArith.agrees run ->
    calculator_execute run "15 * 24" = Normal (Result (VInt 360)) /\
    calculator_execute run "1 +" = Normal (Error "Invalid mathematical expression") /\
    (forall expression, exists r, calculator_execute run expression = Normal r) /\
    (forall expression e,
        run (function_body expression) = Throw e ->
        calculator_execute run expression
        = Normal (Error "Invalid mathematical expression")).
Proof.
  intros run Hrun. repeat split.
  - apply calculator_execute_value.
    exact (Hrun "15 * 24").
  - destruct (Hrun "1 +") as [e He].
    now apply calculator_execute_catches with e.
  - intros expression. apply calculator_execute_returns.
  - intros expression e. apply calculator_execute_catches.
Qed.

Lemma calculator_contract_witness :
  calculator_execute JsArith.reference_run "15 * 24" = Normal (Result (VInt 360)) /\
  calculator_execute JsArith.reference_run "1 +"
  = Normal (Error "Invalid mathematical expression").
Proof.
  destruct (calculator_contract JsArith.reference_run reference_run_agrees)
    as [H1 [H2 _]].
  split; assumption.
Defined.

(** [Math.round] and [Math.floor] keep a number between two integers
    between them. *)
Lemma Math_round_between (x : Q) (lo hi : Z) :
  (inject_Z lo <= x)%Q -> (x <= inject_Z hi)%Q -> lo <= Math_round x <= hi.
Proof.
  intros Hlo Hhi. unfold Math_round. split.
  - rewrite <- (Qfloor_Z lo). apply Qfloor_resp_le. lra.
  - assert (H : Qfloor (x + (1 # 2)) <= Qfloor (inject_Z hi + (1 # 2))%Q)
      by (apply Qfloor_resp_le; lra).
    assert (Hh : Qfloor (inject_Z hi + (1 # 2))%Q = hi).
    { apply Z.le_antisymm.
      - apply Z.lt_succ_r. rewrite Zlt_Qlt.
        eapply Qle_lt_trans; [apply Qfloor_le|].
        unfold Z.succ. rewrite inject_Z_plus. change (inject_Z 1) with 1%Q. lra.
      - rewrite <- (Qfloor_Z hi) at 1. apply Qfloor_resp_le. lra. }
    lia.
Qed.

Lemma Math_floor_between (x : Q) (lo hi : Z) :
  (inject_Z lo <= x)%Q -> (x < inject_Z hi)%Q -> lo <= Math_floor x < hi.
Proof.
  intros Hlo Hhi. unfold Math_floor. split.
  - rewrite <- (Qfloor_Z lo). now apply Qfloor_resp_le.
  - rewrite Zlt_Qlt. eapply Qle_lt_trans; [apply Qfloor_le | exact Hhi].
Qed.

(** Real arithmetic is a rounding. *)
Lemma exact_rounding : rounding (fun q => q).
Proof.
  constructor; intros; [assumption | reflexivity | reflexivity].
Qed.

(** C5. For every pair of values of the pseudo-random source in [0, 1)
    (the second one a number of the number type), the temperature the
    weather tool returns is an integer between 32 and 90, and its
    description is one of "sunny", "cloudy", "rainy" and "snowy"; this for
    real arithmetic and for every rounding arithmetic. *)
Theorem weather_ranges :
  forall (fl : Q -> Q) (random1 random2 : Q) (loc : string),
    rounding fl ->
    (0 <= random1)%Q -> (random1 < 1)%Q ->
    (0 <= random2)%Q -> (random2 < 1)%Q ->
    (fl random2 == random2)%Q ->
    let w := weather_execute fl random1 random2 loc in
    (32 <= temperature w <= 90) /\
    (exists d, description w = Some d /\
               In d ["sunny"; "cloudy"; "rainy"; "snowy"]) /\
    location w = loc.
Proof.
  intros fl r1 r2 loc Hfl H1 H1' H2 H2' Hrep. simpl.
  destruct Hfl as [Hmono Hint Hx4].
  pose proof (Hint 0 ltac:(vm_compute; discriminate)) as F0.
  pose proof (Hint 58 ltac:(vm_compute; discriminate)) as F58.
  pose proof (Hint 32 ltac:(vm_compute; discriminate)) as F32.
  pose proof (Hint 90 ltac:(vm_compute; discriminate)) as F90.
  split; [|split; [|reflexivity]].
  - assert (Ha : (0 <= fl (r1 * (90 - 32)))%Q).
    { rewrite <- F0. apply Hmono. change (inject_Z 0) with 0%Q. lra. }
    assert (Hb : (fl (r1 * (90 - 32)) <= 58)%Q).
    { change 58%Q with (inject_Z 58). rewrite <- F58. apply Hmono.
      change (inject_Z 58) with 58%Q. lra. }
    apply Math_round_between.
    + rewrite <- F32. apply Hmono. change (inject_Z 32) with 32%Q. lra.
    + rewrite <- F90. apply Hmono. change (inject_Z 90) with 90%Q. lra.
  - pose proof (Hx4 r2 Hrep H2 H2') as Hex.
    assert (Hi : 0 <= Math_floor (fl (r2 * 4)%Q) < 4).
    { unfold Math_floor. rewrite Hex. apply Math_floor_between.
      - change (inject_Z 0) with 0%Q. lra.
      - change (inject_Z 4) with 4%Q. lra. }
    assert (Hc : Math_floor (fl (r2 * 4)%Q) = 0 \/ Math_floor (fl (r2 * 4)%Q) = 1 \/
                 Math_floor (fl (r2 * 4)%Q) = 2 \/ Math_floor (fl (r2 * 4)%Q) = 3) by lia.
    destruct Hc as [-> | [-> | [-> | ->]]]; eexists; (split; [reflexivity|]);
      simpl; tauto.
Qed.

Lemma weather_ranges_witness :
  (32 <= temperature (weather_execute (fun q => q) (1 # 2) (3 # 4) "Tokyo") <= 90) /\
  (exists d, description (weather_execute (fun q => q) (1 # 2) (3 # 4) "Tokyo") = Some d /\
             In d ["sunny"; "cloudy"; "rainy"; "snowy"]).
Proof.
  destruct (weather_ranges (fun q => q) (1 # 2) (3 # 4) "Tokyo" exact_rounding
              ltac:(discriminate) ltac:(reflexivity)
              ltac:(discriminate) ltac:(reflexivity)
              ltac:(reflexivity)) as [Ht [Hd _]].
  split; assumption.
Defined.

End ToolProperties.

(* ================================================================== *)
(** * Properties of the chat page *)
(* ================================================================== *)

Ltac Zify.zify_post_hook ::= Z.to_euclidean_division_equations.

Section ChatPageProperties.
Import ChatPage.

Variable handleSubmit : UseChat -> UseChat.

(** A rejected submission changes nothing. *)
Lemma onSubmit_rejected (e : FormEvent) (s : State) :
  submit_rejected s = true ->
  onSubmit handleSubmit e s = (preventDefault e, s).
Proof.
  intros H. unfold onSubmit. now rewrite H.
Qed.

Lemma cooldown_rejects (s : State) :
  0 < rateLimitCooldown s -> submit_rejected s = true.
Proof.
  intros H. unfold submit_rejected.
  apply Z.ltb_lt in H. rewrite H. apply orb_true_r.
Qed.

Lemma blank_rejects (s : State) :
  JsString.all_white_space (input (chat s)) = true -> submit_rejected s = true.
Proof.
  intros H. unfold submit_rejected. now rewrite (trim_white _ H).
Qed.

Lemma setRateLimitCooldown_changed (v : Z) (s : State) :
  v <> rateLimitCooldown s ->
  setRateLimitCooldown v s
  = {| chat := chat s;
       isTyping := isTyping s;
       rateLimitCooldown := v;
       cooldownTimer := cooldown_effect v;
       typingTimers := typingTimers s |}.
Proof.
  intros H. unfold setRateLimitCooldown.
  destruct (v =? rateLimitCooldown s) eqn:E; [apply Z.eqb_eq in E; contradiction|].
  reflexivity.
Qed.

(** An accepted submission sets the counter to 3 and starts the timeout. *)
Lemma onSubmit_accepted (e : FormEvent) (s : State) :
  submit_rejected s = false ->
  rateLimitCooldown (snd (onSubmit handleSubmit e s)) = 3 /\
  cooldownTimer (snd (onSubmit handleSubmit e s))
  = Some {| remaining := 1000; captured := 3 |} /\
  chat (snd (onSubmit handleSubmit e s)) = handleSubmit (chat s) /\
  isTyping (snd (onSubmit handleSubmit e s)) = true.
Proof.
  intros H. unfold onSubmit. rewrite H.
  apply orb_false_iff in H as [_ Hc]. apply Z.ltb_ge in Hc.
  cbv zeta. rewrite setRateLimitCooldown_changed by (simpl; lia).
  simpl. repeat split.
Qed.

(** The timeouts of the typing indicator leave the cooldown alone. *)
Lemma tick_typing_cooldown (s : State) :
  rateLimitCooldown (tick_typing s) = rateLimitCooldown s /\
  cooldownTimer (tick_typing s) = cooldownTimer s /\
  chat (tick_typing s) = chat s.
Proof. repeat split. Qed.

(** *** The counter is never negative *)

Lemma initial_invariant : cooldown_invariant initial.
Proof.
  split; [simpl; lia | intros t H; discriminate].
Qed.

Lemma tick_preserves_invariant (s : State) :
  cooldown_invariant s -> cooldown_invariant (tick s).
Proof.
  intros [Hnn Ht]. unfold tick, tick_cooldown.
  change (cooldownTimer (tick_typing s)) with (cooldownTimer s).
  destruct (cooldownTimer s) as [[r c]|] eqn:E.
  - destruct (Ht _ eq_refl) as [Hc Hpos]. simpl in Hc. simpl.
    destruct r as [|[|r]].
    + rewrite setRateLimitCooldown_changed by (simpl; lia). split; simpl; [lia|].
      unfold cooldown_effect. intros t. destruct (0 <? c - 1) eqn:L; [|discriminate].
      apply Z.ltb_lt in L. intros H. inversion H; subst t. simpl. lia.
    + rewrite setRateLimitCooldown_changed by (simpl; lia). split; simpl; [lia|].
      unfold cooldown_effect. intros t. destruct (0 <? c - 1) eqn:L; [|discriminate].
      apply Z.ltb_lt in L. intros H. inversion H; subst t. simpl. lia.
    + split; simpl; [lia|]. intros t H. inversion H; subst t. simpl. lia.
  - split; simpl; [exact Hnn|]. rewrite E. intros t H. discriminate.
Qed.

Lemma step_preserves_invariant (s : State) (ev : event) :
  cooldown_invariant s -> cooldown_invariant (step handleSubmit s ev).
Proof.
  intros Hs. destruct ev as [|e|v|f]; simpl.
  - now apply tick_preserves_invariant.
  - destruct (submit_rejected s) eqn:R.
    + now rewrite onSubmit_rejected.
    + destruct (onSubmit_accepted e s R) as [Hc [Ht _]].
      split; [rewrite Hc; lia|]. rewrite Ht, Hc.
      intros t H. inversion H; subst t. simpl. lia.
  - exact Hs.
  - exact Hs.
Qed.

Lemma run_preserves_invariant (evs : list event) (s : State) :
  cooldown_invariant s -> cooldown_invariant (run handleSubmit evs s).
Proof.
  revert s. induction evs as [|ev evs IH]; intros s Hs; simpl; [exact Hs|].
  apply IH. now apply step_preserves_invariant.
Qed.

(** One millisecond changes the counter of a state that satisfies the
    invariant only by taking one unit from a positive value. *)
Lemma tick_decrements_positive (s : State) :
  cooldown_invariant s ->
  rateLimitCooldown (tick s) = rateLimitCooldown s \/
  (0 < rateLimitCooldown s /\ rateLimitCooldown (tick s) = rateLimitCooldown s - 1).
Proof.
  intros [Hnn Ht]. unfold tick, tick_cooldown.
  change (cooldownTimer (tick_typing s)) with (cooldownTimer s).
  destruct (cooldownTimer s) as [[r c]|] eqn:E; [|left; reflexivity].
  destruct (Ht _ eq_refl) as [Hc Hpos]. simpl in Hc. simpl.
  destruct r as [|[|r]].
  - right. rewrite setRateLimitCooldown_changed by (simpl; lia). simpl. lia.
  - right. rewrite setRateLimitCooldown_changed by (simpl; lia). simpl. lia.
  - left. reflexivity.
Qed.

(** C10. In every state the page can reach from its first render (by
    time passing, submissions, changes of the draft and changes made by the
    chat hook) the cooldown counter is not negative. It starts at 0; a
    submission leaves it as it is when rejected and sets it to 3 when
    accepted; and a millisecond of time either leaves it as it is or takes 1
    from a value that is greater than 0. *)
Theorem cooldown_never_negative :
  forall evs : list event,
    rateLimitCooldown initial = 0 /\
    0 <= rateLimitCooldown (run handleSubmit evs initial) /\
    (forall e,
        rateLimitCooldown (snd (onSubmit handleSubmit e (run handleSubmit evs initial)))
        = if submit_rejected (run handleSubmit evs initial)
          then rateLimitCooldown (run handleSubmit evs initial)
          else 3) /\
    (rateLimitCooldown (tick (run handleSubmit evs initial))
     = rateLimitCooldown (run handleSubmit evs initial)
     \/
     (0 < rateLimitCooldown (run handleSubmit evs initial) /\
      rateLimitCooldown (tick (run handleSubmit evs initial))
      = rateLimitCooldown (run handleSubmit evs initial) - 1)).
Proof.
  intros evs.
  pose proof (run_preserves_invariant evs initial initial_invariant) as Hinv.
  split; [reflexivity|]. split; [apply Hinv|]. split.
  - intros e. destruct (submit_rejected (run handleSubmit evs initial)) eqn:R.
    + now rewrite onSubmit_rejected.
    + apply (onSubmit_accepted e _ R).
  - now apply tick_decrements_positive.
Qed.

(** *** The countdown after a submission *)

(** One millisecond for a state whose timeout closed over the current
    counter: the timeout gets nearer, or it runs, takes 1 from the counter
    and the effect runs again. *)
Lemma tick_with_timer (s : State) (r : nat) (c : Z) :
  cooldownTimer s = Some {| remaining := r; captured := c |} ->
  c = rateLimitCooldown s ->
  match r with
  | S (S r') =>
      rateLimitCooldown (tick s) = c /\
      cooldownTimer (tick s) = Some {| remaining := S r'; captured := c |}
  | _ =>
      rateLimitCooldown (tick s) = c - 1 /\
      cooldownTimer (tick s) = cooldown_effect (c - 1)
  end.
Proof.
  intros Htm Hc. unfold tick, tick_cooldown.
  change (cooldownTimer (tick_typing s)) with (cooldownTimer s).
  rewrite Htm. cbn [remaining captured].
  destruct r as [|[|r']].
  - rewrite setRateLimitCooldown_changed by (cbn; lia). split; reflexivity.
  - rewrite setRateLimitCooldown_changed by (cbn; lia). split; reflexivity.
  - split; [cbn; now rewrite Hc | reflexivity].
Qed.

Lemma tick_counting_down (t : nat) (s : State) :
  (t < 3000)%nat ->
  counting_down t s ->
  ((t + 1 < 3000)%nat -> counting_down (t + 1) (tick s)) /\
  ((t + 1 = 3000)%nat ->
   rateLimitCooldown (tick s) = 0 /\ cooldownTimer (tick s) = None).
Proof.
  intros Ht [Hc Htm]. unfold counting_down.
  pose proof (tick_with_timer s _ _ Htm (eq_sym Hc)) as H.
  remember (1000 - t mod 1000)%nat as r eqn:E.
  remember (3 - Z.of_nat (t / 1000)) as c eqn:Ec.
  destruct r as [|[|r']].
  - exfalso. lia.
  - destruct H as [H1 H2]. rewrite H1, H2. unfold cooldown_effect.
    destruct (0 <? c - 1) eqn:L; [apply Z.ltb_lt in L | apply Z.ltb_ge in L].
    + split; intros H; [|exfalso; lia].
      split; [lia|]. f_equal. f_equal; lia.
    + split; intros H; [exfalso; lia|]. split; [lia | reflexivity].
  - destruct H as [H1 H2]. rewrite H1, H2.
    split; intros H; [|exfalso; lia].
    split; [lia|]. f_equal. f_equal; lia.
Qed.

Lemma counting_down_positive (t : nat) (s : State) :
  (t < 3000)%nat -> counting_down t s -> 0 < rateLimitCooldown s.
Proof.
  intros Ht [Hc _]. rewrite Hc. lia.
Qed.

Lemma step_counting_down (t : nat) (s : State) (ev : event) :
  (t < 3000)%nat ->
  counting_down t s ->
  match ev with
  | Tick => (t + 1 < 3000)%nat -> counting_down (t + 1) (step handleSubmit s ev)
  | _ => counting_down t (step handleSubmit s ev)
  end.
Proof.
  intros Ht Hs. destruct ev as [|e|v|f]; simpl.
  - apply (tick_counting_down t s Ht Hs).
  - rewrite onSubmit_rejected; [exact Hs|].
    apply cooldown_rejects. now apply counting_down_positive with t.
  - exact Hs.
  - exact Hs.
Qed.

Lemma run_counting_down (evs : list event) :
  forall (s : State) (t : nat),
    counting_down t s ->
    (t + elapsed evs < 3000)%nat ->
    counting_down (t + elapsed evs) (run handleSubmit evs s).
Proof.
  induction evs as [|ev evs IH]; intros s t Hs Ht.
  - simpl. now rewrite Nat.add_0_r.
  - assert (Hlt : (t < 3000)%nat) by lia.
    pose proof (step_counting_down t s ev Hlt Hs) as Hstep.
    change (run handleSubmit (ev :: evs) s)
      with (run handleSubmit evs (step handleSubmit s ev)).
    destruct ev as [|e|v|f].
    + change (elapsed (Tick :: evs)) with (S (elapsed evs)) in *.
      replace (t + S (elapsed evs))%nat with ((t + 1) + elapsed evs)%nat by lia.
      apply IH; [apply Hstep|]; lia.
    + change (elapsed (Submit e :: evs)) with (elapsed evs) in *. now apply IH.
    + change (elapsed (InputChange v :: evs)) with (elapsed evs) in *. now apply IH.
    + change (elapsed (ChatUpdate f :: evs)) with (elapsed evs) in *. now apply IH.
Qed.

(** C8. In every state in which the draft is empty or white space only,
    or in which the cooldown counter is greater than 0, [onSubmit] changes
    nothing: the state after it is the state before it, so the draft is the
    same and the hook has sent no request. *)
Theorem rejected_submit_changes_nothing :
  forall (e : FormEvent) (s : State),
    JsString.all_white_space (input (chat s)) = true \/ 0 < rateLimitCooldown s ->
    onSubmit handleSubmit e s = (preventDefault e, s) /\
    input (chat (snd (onSubmit handleSubmit e s))) = input (chat s) /\
    requests (chat (snd (onSubmit handleSubmit e s))) = requests (chat s).
Proof.
  intros e s H.
  assert (R : submit_rejected s = true)
    by (destruct H; [now apply blank_rejects | now apply cooldown_rejects]).
  rewrite (onSubmit_rejected e s R). repeat split.
Qed.

(** C9. After every accepted submission the cooldown counter is 3. From
    then on, whatever else happens, while fewer than 3000 milliseconds have
    passed the counter is 3 less the number of full seconds passed, it is
    greater than 0, the send button and the input field are disabled and
    [onSubmit] changes nothing; and the millisecond that completes the third
    second brings the counter to 0, from when a submission is rejected only
    for a blank draft and the input field is disabled only while the hook is
    loading. *)
Theorem cooldown_counts_down_three_seconds :
  forall (e : FormEvent) (s : State),
    submit_rejected s = false ->
    rateLimitCooldown (snd (onSubmit handleSubmit e s)) = 3 /\
    (forall evs : list event,
        (elapsed evs < 3000)%nat ->
        rateLimitCooldown (run handleSubmit evs (snd (onSubmit handleSubmit e s)))
        = 3 - Z.of_nat (elapsed evs / 1000) /\
        0 < rateLimitCooldown (run handleSubmit evs (snd (onSubmit handleSubmit e s))) /\
        button_disabled (run handleSubmit evs (snd (onSubmit handleSubmit e s))) = true /\
        input_disabled (run handleSubmit evs (snd (onSubmit handleSubmit e s))) = true /\
        forall e',
          onSubmit handleSubmit e' (run handleSubmit evs (snd (onSubmit handleSubmit e s)))
          = (preventDefault e', run handleSubmit evs (snd (onSubmit handleSubmit e s)))) /\
    (forall evs : list event,
        elapsed evs = 2999%nat ->
        rateLimitCooldown
          (tick (run handleSubmit evs (snd (onSubmit handleSubmit e s)))) = 0 /\
        submit_rejected
          (tick (run handleSubmit evs (snd (onSubmit handleSubmit e s))))
        = JsString.all_white_space (input (chat
            (tick (run handleSubmit evs (snd (onSubmit handleSubmit e s)))))) /\
        input_disabled
          (tick (run handleSubmit evs (snd (onSubmit handleSubmit e s))))
        = isLoading (chat
            (tick (run handleSubmit evs (snd (onSubmit handleSubmit e s)))))).
Proof.
  intros e s R.
  destruct (onSubmit_accepted e s R) as [Hc [Ht _]].
  set (s0 := snd (onSubmit handleSubmit e s)) in *.
  assert (H0 : counting_down 0 s0) by (split; [rewrite Hc | rewrite Ht]; reflexivity).
  split; [exact Hc|]. split.
  - intros evs Hlt.
    pose proof (run_counting_down evs s0 0%nat H0 ltac:(simpl; lia)) as Hrun.
    simpl in Hrun. set (s1 := run handleSubmit evs s0) in *.
    pose proof (counting_down_positive _ _ Hlt Hrun) as Hpos.
    split; [apply Hrun|]. split; [exact Hpos|].
    assert (L : (0 <? rateLimitCooldown s1) = true) by now apply Z.ltb_lt.
    split; [unfold button_disabled; rewrite L; apply orb_true_r|].
    split; [unfold input_disabled; rewrite L; apply orb_true_r|].
    intros e'. apply onSubmit_rejected. now apply cooldown_rejects.
  - intros evs Hel.
    pose proof (run_counting_down evs s0 0%nat H0 ltac:(simpl; lia)) as Hrun.
    simpl in Hrun. rewrite Hel in Hrun.
    destruct (tick_counting_down 2999 _ ltac:(lia) Hrun) as [_ Hz].
    destruct (Hz eq_refl) as [Hzero _].
    split; [exact Hzero|]. unfold submit_rejected, input_disabled. rewrite Hzero.
    rewrite not_trim_iff_white. simpl. now rewrite !orb_false_r.
Qed.

End ChatPageProperties.

Section ChatPageWitnesses.
Import ChatPage.

Lemma rejected_submit_changes_nothing_witness :
  (JsString.all_white_space (input (chat Samples.draft_blank)) = true \/
   0 < rateLimitCooldown Samples.draft_blank) /\
  onSubmit sdk_handleSubmit Samples.submit_event Samples.draft_blank
  = (preventDefault Samples.submit_event, Samples.draft_blank).
Proof.
  split; [left; reflexivity|].
  apply (rejected_submit_changes_nothing sdk_handleSubmit
           Samples.submit_event Samples.draft_blank).
  left; reflexivity.
Defined.

Lemma cooldown_counts_down_three_seconds_witness :
  submit_rejected Samples.draft_hi = false /\
  rateLimitCooldown
    (snd (onSubmit sdk_handleSubmit Samples.submit_event Samples.draft_hi)) = 3 /\
  rateLimitCooldown
    (run sdk_handleSubmit (repeat Tick 1500)
       (snd (onSubmit sdk_handleSubmit Samples.submit_event Samples.draft_hi))) = 2 /\
  rateLimitCooldown
    (tick (run sdk_handleSubmit (repeat Tick 2999)
             (snd (onSubmit sdk_handleSubmit Samples.submit_event Samples.draft_hi)))) = 0.
Proof.
  split; [reflexivity|].
  destruct (cooldown_counts_down_three_seconds sdk_handleSubmit
              Samples.submit_event Samples.draft_hi eq_refl) as [H3 [Hrun Hend]].
  split; [exact H3|]. split.
  - destruct (Hrun (repeat Tick 1500)) as [H _]; [vm_compute; lia|]. exact H.
  - destruct (Hend (repeat Tick 2999)) as [H _]; [vm_compute; reflexivity|]. exact H.
Defined.

End ChatPageWitnesses.

(* ================================================================== *)
(** * Worked examples *)
(* ================================================================== *)

Section Examples.

Example includes_finds_quota :
  JsString.includes "quota" "You exceeded your current quota" = true.
Proof. reflexivity. Qed.

Example includes_is_case_sensitive :
  JsString.includes "rate limit" "Rate limit exceeded" = false.
Proof. reflexivity. Qed.

Example trim_keeps_inner_spaces : JsString.trim "  a b  " = "a b".
Proof. reflexivity. Qed.

Example classify_authentication :
  Endpoint.classify (JsError.mk (Some "authentication failed") (Some 403))
  = Endpoint.json_response
      {| Endpoint.error :=
           "Invalid API key. Please check your Google Gemini API key configuration.";
         Endpoint.type := Some "auth_error";
         Endpoint.details := None |}
      401.
Proof. reflexivity. Qed.

Example classify_without_message :
  Endpoint.classify (JsError.mk None (Some 401))
  = Endpoint.classify (JsError.mk (Some "authentication") None).
Proof. reflexivity. Qed.

Example POST_streams_with_key :
  Endpoint.POST Samples.echo_sdk (Some "key") (Normal (Endpoint.BodyValue (Some [])))
  = ([Endpoint.ProviderCall (Endpoint.settings (Some []))],
     Normal {| Endpoint.status := 200;
               Endpoint.headers := [];
               Endpoint.body := Endpoint.Streamed ["ok"] |}).
Proof. reflexivity. Qed.

Example POST_null_body_is_generic :
  Endpoint.response_type
    (match Endpoint.outcome (Endpoint.POST Samples.echo_sdk (Some "key") (Normal Endpoint.BodyNull)) with
     | Normal r => r
     | Throw _ => Endpoint.missing_key_response
     end)
  = Some "generic_error".
Proof. reflexivity. Qed.

Example run_body_product :
  JsArith.run_body (Tools.function_body "15 * 24")
  = Some (JsArith.Value (JsArith.Int 360)).
Proof. reflexivity. Qed.

Example run_body_dangling_operator :
  JsArith.run_body (Tools.function_body "1 +") = Some JsArith.SyntaxError.
Proof. reflexivity. Qed.

Example run_body_precedence :
  JsArith.run_body (Tools.function_body "2 - -3 * (4 + 1)")
  = Some (JsArith.Value (JsArith.Int 17)).
Proof. reflexivity. Qed.

Example run_body_text_is_pasted :
  JsArith.run_body (Tools.function_body "1) + (2")
  = Some (JsArith.Value (JsArith.Int 3)).
Proof. reflexivity. Qed.

Example run_body_call_of_number :
  JsArith.run_body (Tools.function_body "1(2)") = Some JsArith.TypeError.
Proof. reflexivity. Qed.

Example run_body_outside_fragment :
  JsArith.run_body (Tools.function_body "Math.sqrt(4)") = None.
Proof. reflexivity. Qed.

Example weather_coldest :
  Tools.temperature (Tools.weather_execute (fun q => q) 0 0 "Oslo") = 32.
Proof. reflexivity. Qed.

Example weather_hottest :
  Tools.weather_execute (fun q => q) (999 # 1000) (999 # 1000) "Cairo"
  = {| Tools.location := "Cairo";
       Tools.temperature := 90;
       Tools.description := Some "snowy" |}.
Proof. reflexivity. Qed.

Example submit_then_one_second :
  ChatPage.rateLimitCooldown
    (ChatPage.run ChatPage.sdk_handleSubmit
       (ChatPage.Submit Samples.submit_event :: repeat ChatPage.Tick 1000)
       Samples.draft_hi)
  = 2.
Proof. vm_compute. reflexivity. Qed.

Example submit_sends_one_request :
  ChatPage.requests
    (ChatPage.chat
       (ChatPage.run ChatPage.sdk_handleSubmit
          [ChatPage.Submit Samples.submit_event;
           ChatPage.InputChange "again";
           ChatPage.Submit Samples.submit_event]
          Samples.draft_hi))
  = 1%nat.
Proof. reflexivity. Qed.

Example rate_limit_answer_text :
  Json.response_text (Endpoint.classify Samples.too_many_requests)
  = Some (Json.stringify
            {| Endpoint.error :=
                 "Rate limit exceeded. Please wait a moment before sending another message.";
               Endpoint.type := Some "rate_limit";
               Endpoint.details := None |}).
Proof. reflexivity. Qed.

Example stringify_escapes_details :
  Json.escape (String "013"%char (String "001"%char (String Tools.dquote "x")))
  = String Json.backslash ("r" ++ String Json.backslash ("u0001" ++
      String Json.backslash (String Tools.dquote "x"))).
Proof. reflexivity. Qed.

(** A carriage return before "ate limit" is written as a backslash and an
    [r]: the page then finds "rate limit" in a generic answer. *)
Example generic_answer_read_as_rate_limit :
  Endpoint.response_type
    (Endpoint.classify (JsError.mk (Some (String "013"%char "ate limit")) None))
  = Some "generic_error" /\
  ChatErrors.title
    (ChatErrors.onError
       (JsError.mk
          (Json.response_text
             (Endpoint.classify (JsError.mk (Some (String "013"%char "ate limit")) None)))
          None))
  = "Rate Limited".
Proof. split; reflexivity. Qed.

Example run_body_without_space_after_return :
  JsArith.run_body (String Tools.dquote ("use strict" ++ String Tools.dquote "; return1"))
  = None.
Proof. reflexivity. Qed.

Example run_body_nothing_to_return :
  JsArith.run_body (String Tools.dquote ("use strict" ++ String Tools.dquote "; return"))
  = None /\
  JsArith.run_body (String Tools.dquote ("use strict" ++ String Tools.dquote "; return  "))
  = None.
Proof. split; reflexivity. Qed.

Example run_body_empty_parentheses :
  JsArith.run_body (Tools.function_body "") = Some JsArith.SyntaxError.
Proof. reflexivity. Qed.

Example run_body_negative_zero :
  JsArith.run_body (Tools.function_body "0 * -3")
  = Some (JsArith.Value JsArith.NegZero).
Proof. reflexivity. Qed.

Example POST_rejects_on_caught_undefined :
  Endpoint.POST Samples.echo_sdk (Some "key") (Throw ThrownUndefined)
  = ([Endpoint.ConsoleError "Chat API Error:" ThrownUndefined],
     Throw (JsError.mk
              (Some "Cannot read properties of undefined (reading 'message')") None)).
Proof. reflexivity. Qed.

Example POST_rejects_on_odd_message :
  Endpoint.outcome
    (Endpoint.POST
       {| Endpoint.streamText := fun _ => Throw OddMessage;
          Endpoint.toAIStreamResponse := Endpoint.toAIStreamResponse Samples.echo_sdk |}
       (Some "key") (Normal (Endpoint.BodyValue (Some []))))
  = Throw (JsError.mk (Some "error.message?.includes is not a function") None).
Proof. reflexivity. Qed.

End Examples.

(* ================================================================== *)
(** * Further properties of the chat endpoint *)
(* ================================================================== *)

Section EndpointEffects.
Import Endpoint EndpointLog.

Lemma append_associative (a b c : string) : (a ++ b) ++ c = a ++ (b ++ c).
Proof.
  induction a as [|x a IH]; simpl; [reflexivity | now rewrite IH].
Qed.

(** A string that contains [needle] still contains it with text put before
    and after. *)
Lemma includes_embedded (needle m pre post : string) :
  JsString.includes needle m = true ->
  JsString.includes needle (pre ++ m ++ post) = true.
Proof.
  rewrite !includes_iff_occurs. intros [a [b ->]].
  exists (pre ++ a), (b ++ post).
  now rewrite !append_associative.
Qed.

(** X1. The provider is called at most once: once, with the fixed settings and
    the messages of the request as they came, when a key is configured and
    the body was read; not at all otherwise. *)
Theorem provider_called_once_with_request_messages :
  forall (sdk : Sdk) (key : option string) (req : completion RequestBody),
    provider_calls (trace (POST sdk key req))
    = match req with
      | Normal (BodyValue msgs) => if env_truthy key then [settings msgs] else []
      | _ => []
      end.
Proof.
  intros sdk key req. unfold POST, POST_try, POST_catch, call_streamText.
  destruct req as [[|msgs]|e]; simpl; try reflexivity.
  destruct (env_truthy key); simpl; [|reflexivity].
  destruct (streamText sdk (settings msgs)) as [result|e]; simpl; [|reflexivity].
  destruct (toAIStreamResponse sdk result) as [r|e]; reflexivity.
Qed.

(** X2. One line is logged exactly when the [try] block throws, and it
    carries the value that was thrown, whatever it is; the call then ends as
    the classification of that value does: with the classified answer for an
    error object, with the TypeError of the [catch] block itself for [null],
    [undefined] or an odd message. An answer of the [try] block (the stream,
    or the missing-key answer) is returned with nothing logged. *)
Theorem log_line_exactly_for_caught_errors :
  forall (sdk : Sdk) (key : option string) (req : completion RequestBody),
    (exists v : thrown,
        outcome (POST_try sdk key req) = Throw v /\
        logged (trace (POST sdk key req)) = [("Chat API Error:", v)] /\
        outcome (POST sdk key req) = classify_thrown v /\
        (forall e : JsError.t,
            v = ErrorObject e -> outcome (POST sdk key req) = Normal (classify e)) /\
        ((forall e : JsError.t, v <> ErrorObject e) ->
         exists err, outcome (POST sdk key req) = Throw err))
    \/
    (exists r,
        outcome (POST_try sdk key req) = Normal r /\
        logged (trace (POST sdk key req)) = [] /\
        outcome (POST sdk key req) = Normal r).
Proof.
  intros sdk key req.
  destruct (outcome (POST_try sdk key req)) as [r|v] eqn:H.
  - right. exists r. rewrite (POST_of_normal _ _ _ _ H).
    split; [reflexivity|]. split; [|reflexivity].
    unfold POST_try, call_streamText, trace.
    destruct req as [[|msgs]|e]; simpl; try reflexivity.
    destruct (env_truthy key); simpl; [|reflexivity].
    destruct (streamText sdk (settings msgs)) as [result|e]; simpl; [|reflexivity].
    destruct (toAIStreamResponse sdk result) as [r'|e]; reflexivity.
  - left. exists v. rewrite (POST_of_thrown _ _ _ _ H).
    split; [reflexivity|]. split; [|split; [reflexivity|split]].
    + unfold POST_try, call_streamText, trace.
      destruct req as [[|msgs]|e]; simpl; try reflexivity.
      destruct (env_truthy key); simpl; [|reflexivity].
      destruct (streamText sdk (settings msgs)) as [result|e]; simpl; [|reflexivity].
      destruct (toAIStreamResponse sdk result) as [r'|e]; reflexivity.
    + intros e ->. reflexivity.
    + intros Hv. destruct v as [| |e|]; try (eexists; reflexivity).
      exfalso. now apply (Hv e).
Qed.

(** X3. The upstream message reaches the caller only in a [generic_error]
    answer: an answer with [details] has status 500 and type
    [generic_error], its [details] is the upstream message, and that message
    mentions none of "quota", "exceeded", "rate limit" and
    "authentication". *)
Theorem details_only_in_generic_answers :
  forall (e : JsError.t) (d : string),
    response_details (classify e) = Some d ->
    JsError.message e = Some d /\
    status (classify e) = 500 /\
    response_type (classify e) = Some "generic_error" /\
    JsString.includes "quota" d = false /\
    JsString.includes "exceeded" d = false /\
    JsString.includes "rate limit" d = false /\
    JsString.includes "authentication" d = false.
Proof.
  intros e d H. unfold classify in *.
  destruct (message_includes e "quota" || message_includes e "exceeded") eqn:C1;
    [discriminate|].
  destruct (message_includes e "rate limit" || status_is e 429) eqn:C2;
    [discriminate|].
  destruct (message_includes e "authentication" || status_is e 401) eqn:C3;
    [discriminate|].
  change (JsError.message e = Some d) in H. unfold message_includes in *.
  rewrite H in *.
  apply orb_false_iff in C1 as [Hq Hx].
  apply orb_false_iff in C2 as [Hr _].
  apply orb_false_iff in C3 as [Ha _].
  repeat split; assumption.
Qed.

Lemma details_only_in_generic_answers_witness :
  JsError.message Samples.network_down = Some "fetch failed" /\
  status (classify Samples.network_down) = 500 /\
  response_type (classify Samples.network_down) = Some "generic_error".
Proof.
  destruct (details_only_in_generic_answers Samples.network_down "fetch failed" eq_refl)
    as [Hm [Hs [Ht _]]].
  repeat split; assumption.
Defined.

(** An error object without a message is classified by its status alone:
    429 is a rate limit, 401 an authentication error, anything else (or no
    status) a generic error; and no [details] is sent. *)
Theorem error_without_message_goes_by_status :
  forall st : option Z,
    response_type (classify (JsError.mk None st))
    = Some (if status_is (JsError.mk None st) 429 then "rate_limit"
            else if status_is (JsError.mk None st) 401 then "auth_error"
            else "generic_error") /\
    status (classify (JsError.mk None st))
    = (if status_is (JsError.mk None st) 429 then 429
       else if status_is (JsError.mk None st) 401 then 401
       else 500) /\
    response_details (classify (JsError.mk None st)) = None.
Proof.
  intros st. unfold classify, message_includes. cbn [JsError.message orb].
  destruct (status_is (JsError.mk None st) 429); [repeat split|].
  destruct (status_is (JsError.mk None st) 401); repeat split.
Qed.

(** X4. A message that is answered as [quota_exceeded] is answered so whatever
    text is put around it and whatever the status is. *)
Theorem quota_answer_survives_wrapping :
  forall (m pre post : string) (st st' : option Z),
    response_type (classify (JsError.mk (Some m) st)) = Some "quota_exceeded" ->
    response_type (classify (JsError.mk (Some (pre ++ m ++ post)) st'))
    = Some "quota_exceeded" /\
    status (classify (JsError.mk (Some (pre ++ m ++ post)) st')) = 429.
Proof.
  intros m pre post st st' H.
  assert (C : JsString.includes "quota" m || JsString.includes "exceeded" m = true).
  { destruct (classify_cases (JsError.mk (Some m) st))
      as [[C _] | [[_ [_ [_ T]]] | [[_ [_ [_ [_ T]]]] | [_ [_ [_ [_ [T _]]]]]]]];
      [exact C | congruence | congruence | congruence]. }
  assert (C' : message_includes (JsError.mk (Some (pre ++ m ++ post)) st') "quota"
               || message_includes (JsError.mk (Some (pre ++ m ++ post)) st') "exceeded"
               = true).
  { unfold message_includes. cbn [JsError.message].
    apply orb_true_iff in C as [C | C]; apply orb_true_iff; [left | right];
      now apply includes_embedded. }
  unfold classify. rewrite C'. split; reflexivity.
Qed.

Lemma quota_answer_survives_wrapping_witness :
  response_type
    (classify (JsError.mk (Some ("[GoogleGenerativeAI Error]: " ++ "quota" ++ " (429)"))
                          (Some 429)))
  = Some "quota_exceeded".
Proof.
  exact (proj1 (quota_answer_survives_wrapping "quota" "[GoogleGenerativeAI Error]: "
                  " (429)" None (Some 429) eq_refl)).
Defined.

End EndpointEffects.

(* ================================================================== *)
(** * Further properties of the weather tool *)
(* ================================================================== *)

Section WeatherValues.
Import Tools.

(** [Math.round] is the integer within a half of its argument. *)
Lemma Math_round_nearest (x : Q) (t : Z) :
  (inject_Z t - (1 # 2) <= x)%Q -> (x < inject_Z t + (1 # 2))%Q -> Math_round x = t.
Proof.
  intros Hlo Hhi. unfold Math_round. apply Z.le_antisymm.
  - apply Z.lt_succ_r. rewrite Zlt_Qlt.
    eapply Qle_lt_trans; [apply Qfloor_le|].
    unfold Z.succ. rewrite inject_Z_plus. change (inject_Z 1) with 1%Q. lra.
  - rewrite <- (Qfloor_Z t) at 1. apply Qfloor_resp_le. lra.
Qed.

(** A monotone rounding gives equal results on equal numbers. *)
Lemma rounding_respects_equality (fl : Q -> Q) (a b : Q) :
  rounding fl -> (a == b)%Q -> (fl a == fl b)%Q.
Proof.
  intros [Hmono _ _] Hab. apply Qle_antisym; apply Hmono; rewrite Hab; apply Qle_refl.
Qed.

Lemma numerator_for_bounds (t : Z) :
  32 <= t <= 90 ->
  0 <= RandomValues.numerator_for t <= 127 /\
  64 * (t - 32) - 32 <= 29 * RandomValues.numerator_for t < 64 * (t - 32) + 32.
Proof.
  intros H. unfold RandomValues.numerator_for. lia.
Qed.

(** X5. The ranges of the weather tool are reached, in real arithmetic and
    in every rounding arithmetic that is exact on the multiples of 1/128 (as
    doubles are): every temperature from 32 to 90 together with every one
    of the four descriptions is the answer for some pair of values of the
    pseudo-random source in [0, 1) that the number type represents
    (multiples of 1/128). *)
Theorem every_weather_can_occur :
  forall (fl : Q -> Q) (t : Z) (d loc : string),
    rounding fl ->
    RandomValues.exact_on_128ths fl ->
    32 <= t <= 90 ->
    In d descriptions ->
    exists random1 random2 : Q,
      (fl random1 == random1)%Q /\ (fl random2 == random2)%Q /\
      (0 <= random1)%Q /\ (random1 < 1)%Q /\
      (0 <= random2)%Q /\ (random2 < 1)%Q /\
      weather_execute fl random1 random2 loc
      = {| location := loc; temperature := t; description := Some d |}.
Proof.
  intros fl t d loc Hfl Hex Ht Hd.
  destruct (numerator_for_bounds t Ht) as [[Hn0 Hn127] [Hlo Hhi]].
  set (n := RandomValues.numerator_for t) in *.
  assert (Hidx : exists i : Z, 0 <= i < 4 /\ array_get descriptions i = Some d).
  { simpl in Hd. destruct Hd as [<- | [<- | [<- | [<- | []]]]];
      [exists 0 | exists 1 | exists 2 | exists 3]; (split; [lia | reflexivity]). }
  destruct Hidx as [i [[Hi0 Hi4] Hget]].
  (* The numbers involved, as rationals. *)
  assert (Qn0 : (0 <= inject_Z n)%Q) by (change 0%Q with (inject_Z 0); now rewrite <- Zle_Qle).
  assert (Qn127 : (inject_Z n <= 127)%Q)
    by (change 127%Q with (inject_Z 127); now rewrite <- Zle_Qle).
  assert (Qi0 : (0 <= inject_Z i)%Q) by (change 0%Q with (inject_Z 0); now rewrite <- Zle_Qle).
  assert (Qi4 : (inject_Z i < 4)%Q) by (change 4%Q with (inject_Z 4); now rewrite <- Zlt_Qlt).
  assert (Qlo : (64 * inject_Z t <= 29 * inject_Z n + 2080)%Q).
  { assert (H : 64 * t <= 29 * n + 2080) by lia.
    rewrite Zle_Qle, inject_Z_plus, !inject_Z_mult in H. exact H. }
  assert (Qhi : (29 * inject_Z n + 2016 < 64 * inject_Z t)%Q).
  { assert (H : 29 * n + 2016 < 64 * t) by lia.
    rewrite Zlt_Qlt, inject_Z_plus, !inject_Z_mult in H. exact H. }
  (* The arithmetic of the tool is exact on these values. *)
  pose proof (Hex n ltac:(lia)) as E1.
  assert (E2 : (fl (inject_Z n * (1 # 128) * (90 - 32))
                == inject_Z (58 * n) * (1 # 128))%Q).
  { rewrite <- (Hex (58 * n) ltac:(lia)).
    apply rounding_respects_equality; [exact Hfl|].
    rewrite inject_Z_mult. change (inject_Z 58) with 58%Q. ring. }
  assert (E3 : (fl (fl (inject_Z n * (1 # 128) * (90 - 32)) + 32)
                == inject_Z (58 * n + 4096) * (1 # 128))%Q).
  { rewrite <- (Hex (58 * n + 4096) ltac:(lia)).
    apply rounding_respects_equality; [exact Hfl|].
    rewrite E2, inject_Z_plus. change (inject_Z 4096) with 4096%Q. ring. }
  pose proof (Hex (32 * i) ltac:(lia)) as E4.
  assert (E5 : (fl (inject_Z (32 * i) * (1 # 128) * 4) == inject_Z i)%Q).
  { transitivity (inject_Z (128 * i) * (1 # 128))%Q.
    - rewrite <- (Hex (128 * i) ltac:(lia)).
      apply rounding_respects_equality; [exact Hfl|].
      rewrite !inject_Z_mult. change (inject_Z 32) with 32%Q.
      change (inject_Z 128) with 128%Q. ring.
    - rewrite inject_Z_mult. change (inject_Z 128) with 128%Q. ring. }
  exists (inject_Z n * (1 # 128))%Q, (inject_Z (32 * i) * (1 # 128))%Q.
  split; [exact E1|]. split; [exact E4|].
  split; [lra|]. split; [lra|].
  split; [rewrite inject_Z_mult; change (inject_Z 32) with 32%Q; lra|].
  split; [rewrite inject_Z_mult; change (inject_Z 32) with 32%Q; lra|].
  unfold weather_execute. f_equal.
  - apply Math_round_nearest.
    + rewrite E3, inject_Z_plus, inject_Z_mult.
      change (inject_Z 58) with 58%Q. change (inject_Z 4096) with 4096%Q. lra.
    + rewrite E3, inject_Z_plus, inject_Z_mult.
      change (inject_Z 58) with 58%Q. change (inject_Z 4096) with 4096%Q. lra.
  - rewrite <- Hget. f_equal. unfold Math_floor.
    rewrite <- (Qfloor_Z i) at 2. apply Qfloor_comp. exact E5.
Qed.

(** Real arithmetic is exact on every number. *)
Lemma exact_arithmetic_on_128ths : RandomValues.exact_on_128ths (fun q => q).
Proof. intros n _. reflexivity. Qed.

Lemma every_weather_can_occur_witness :
  exists random1 random2 : Q,
    (random1 == random1)%Q /\ (random2 == random2)%Q /\
    (0 <= random1)%Q /\ (random1 < 1)%Q /\
    (0 <= random2)%Q /\ (random2 < 1)%Q /\
    weather_execute (fun q => q) random1 random2 "Oslo"
    = {| location := "Oslo"; temperature := 90; description := Some "snowy" |}.
Proof.
  apply (every_weather_can_occur (fun q => q) 90 "snowy" "Oslo"
           exact_rounding exact_arithmetic_on_128ths).
  - split; discriminate.
  - simpl. tauto.
Defined.

End WeatherValues.

(* ================================================================== *)
(** * How the page reads the endpoint's answers *)
(* ================================================================== *)

Section PageReadsAnswers.
Import Endpoint Json ChatErrors.

(** X6. The two places of the page that word an error take the same branch. *)
Theorem toast_and_alert_agree :
  forall error : JsError.t,
    (message_includes error "quota" = true /\
     title (onError error) = "Quota Exceeded" /\
     alert_description error
     = "API quota exceeded. Please check your Google AI billing plan or try again later.")
    \/
    (message_includes error "quota" = false /\
     message_includes error "rate limit" = true /\
     title (onError error) = "Rate Limited" /\
     alert_description error
     = "Rate limit exceeded. Please wait before sending another message.")
    \/
    (message_includes error "quota" = false /\
     message_includes error "rate limit" = false /\
     title (onError error) = "Error" /\
     alert_description error
     = "Unable to connect to AI service. Please check your internet connection and try again.").
Proof.
  intros error. unfold onError, alert_description.
  destruct (message_includes error "quota");
    [left; repeat split|].
  destruct (message_includes error "rate limit");
    [right; left; repeat split | right; right; repeat split].
Qed.

(** The text of an escaped code unit either is the code unit, or begins with
    a backslash and has no place where "quota" could begin. *)
Lemma escape_char_cases (c : ascii) (rest : string) :
  escape_char c = String c "" \/
  (JsString.includes "quota" (escape_char c ++ rest) = JsString.includes "quota" rest /\
   exists tail, escape_char c = String backslash tail).
Proof.
  destruct c as [b0 b1 b2 b3 b4 b5 b6 b7].
  destruct b0, b1, b2, b3, b4, b5, b6, b7;
    first [ left; reflexivity
          | right; split; [reflexivity | eexists; reflexivity] ].
Qed.

Lemma starts_with_escaped (n : string) :
  plain_needle n = true ->
  forall d rest,
    JsString.starts_with n (escape d ++ String Tools.dquote rest) = true ->
    JsString.starts_with n d = true.
Proof.
  induction n as [|a n IH]; intros Hn d rest H; [reflexivity|].
  simpl in Hn. apply andb_true_iff in Hn as [Ha Hn].
  apply andb_true_iff in Ha as [Hq Hb].
  apply negb_true_iff in Hq. apply negb_true_iff in Hb.
  destruct d as [|c d].
  - simpl in H. rewrite Hq in H. discriminate.
  - cbn [escape] in H. rewrite append_associative in H.
    destruct (escape_char_cases c (escape d ++ String Tools.dquote rest))
      as [Hc | [_ [tail Hc]]]; rewrite Hc in H.
    + simpl in H. simpl. apply andb_true_iff in H as [Hac H].
      rewrite Hac. simpl. now apply IH with rest.
    + simpl in H. rewrite Hb in H. discriminate.
Qed.

Lemma quota_in_escaped (d rest : string) :
  JsString.includes "quota" (escape d ++ String Tools.dquote rest) = true ->
  JsString.includes "quota" d = true \/
  JsString.includes "quota" (String Tools.dquote rest) = true.
Proof.
  induction d as [|c d IH]; intros H; [now right|].
  pose proof (starts_with_escaped "quota" eq_refl (String c d) rest) as Hstart.
  cbn [escape] in H, Hstart. rewrite append_associative in H, Hstart.
  destruct (escape_char_cases c (escape d ++ String Tools.dquote rest))
    as [Hc | [Hskip _]].
  - rewrite Hc in H, Hstart.
    change (String c "" ++ escape d ++ String Tools.dquote rest)
      with (String c (escape d ++ String Tools.dquote rest)) in H, Hstart.
    cbn [JsString.includes] in H. apply orb_true_iff in H as [H | H].
    + left. cbn [JsString.includes]. rewrite (Hstart H). reflexivity.
    + destruct (IH H) as [Hd | Hr]; [left | now right].
      cbn [JsString.includes]. rewrite Hd. apply orb_true_r.
  - rewrite Hskip in H. destruct (IH H) as [Hd | Hr]; [left | now right].
    cbn [JsString.includes]. rewrite Hd. apply orb_true_r.
Qed.

Lemma quota_in_generic_text (d : string) :
  JsString.includes "quota"
    (stringify {| error := "An unexpected error occurred. Please try again later.";
                  type := Some "generic_error";
                  details := Some d |})
  = JsString.includes "quota" (escape d ++ String Tools.dquote "}").
Proof.
  unfold stringify, member, optional_member, quote. cbn [error type details].
  simpl. now rewrite append_associative.
Qed.

(** X7. What the page shows for an error whose message is the text of an answer
    of the endpoint. The quota answer is shown as a quota problem. The
    rate-limit answer is not shown as a rate limit: its text says
    "Rate limit" and "rate_limit", and the page looks for "rate limit"; it
    is shown as the general error, and so are the authentication answer and
    the missing-key answer. A generic answer is never shown as a quota
    problem, whatever the upstream message in its details. *)
Theorem page_reading_of_answers :
  forall e : JsError.t,
    (response_type (classify e) = Some "quota_exceeded" ->
     title (onError (JsError.mk (response_text (classify e)) None)) = "Quota Exceeded") /\
    (response_type (classify e) = Some "rate_limit" ->
     title (onError (JsError.mk (response_text (classify e)) None)) = "Error") /\
    (response_type (classify e) = Some "auth_error" ->
     title (onError (JsError.mk (response_text (classify e)) None)) = "Error") /\
    (response_type (classify e) = Some "generic_error" ->
     title (onError (JsError.mk (response_text (classify e)) None)) <> "Quota Exceeded") /\
    title (onError (JsError.mk (response_text missing_key_response) None)) = "Error".
Proof.
  intros e. unfold classify.
  destruct (message_includes e "quota" || message_includes e "exceeded") eqn:C1;
    [repeat split; intros H; first [reflexivity | discriminate]|].
  destruct (message_includes e "rate limit" || status_is e 429) eqn:C2;
    [repeat split; intros H; first [reflexivity | discriminate]|].
  destruct (message_includes e "authentication" || status_is e 401) eqn:C3;
    [repeat split; intros H; first [reflexivity | discriminate]|].
  split; [discriminate|]. split; [discriminate|]. split; [discriminate|].
  split; [|reflexivity]. intros _.
  apply orb_false_iff in C1 as [Hq _]. unfold message_includes in Hq.
  unfold onError, message_includes, response_text, json_response.
  cbn [body JsError.message].
  destruct (JsError.message e) as [d|].
  - rewrite quota_in_generic_text.
    destruct (JsString.includes "quota" (escape d ++ String Tools.dquote "}")) eqn:Q.
    + exfalso. apply quota_in_escaped in Q as [Q | Q]; [congruence | discriminate].
    + destruct (JsString.includes "rate limit" _); discriminate.
  - discriminate.
Qed.

End PageReadsAnswers.

(* ================================================================== *)
(** * Further properties of the chat page *)
(* ================================================================== *)

Section ChatPagePhaseProperties.
Import ChatPage ChatPagePhases.

Variable handleSubmit : UseChat -> UseChat.

(** The timeout of the cooldown leaves the typing indicator alone. *)
Lemma tick_cooldown_typing (s : State) :
  typingTimers (tick_cooldown s) = typingTimers s /\
  isTyping (tick_cooldown s) = isTyping s.
Proof.
  unfold tick_cooldown. destruct (cooldownTimer s) as [[r c]|]; [|now split].
  cbn [remaining captured]. unfold setRateLimitCooldown. cbn [rateLimitCooldown].
  destruct r as [|[|r]]; try (now split);
    destruct (c - 1 =? rateLimitCooldown s); now split.
Qed.

Lemma tick_typing_fields (s : State) :
  typingTimers (tick s)
  = map Nat.pred (filter (fun ms => negb (due ms)) (typingTimers s)) /\
  isTyping (tick s) = (if existsb due (typingTimers s) then false else isTyping s).
Proof.
  unfold tick. destruct (tick_cooldown_typing (tick_typing s)) as [-> ->].
  split; reflexivity.
Qed.

(** Time does nothing to an idle page. *)
Lemma tick_idle (s : State) : idle s -> tick s = s.
Proof.
  destruct s as [c ty cd tm tt]. unfold idle. cbn.
  intros [-> [-> [-> ->]]]. reflexivity.
Qed.

Lemma tick_phase (t : nat) (s : State) :
  (t < 3000)%nat ->
  phase t s ->
  ((t + 1 < 3000)%nat -> phase (t + 1) (tick s)) /\
  ((t + 1 = 3000)%nat -> idle (tick s)).
Proof.
  intros Ht [Hcd Hty].
  destruct (tick_counting_down t s Ht Hcd) as [Hnext Hend].
  destruct (tick_typing_fields s) as [Htt Hit].
  assert (Htyping :
            ((t + 1 < 1000)%nat /\ typingTimers (tick s) = [(1000 - (t + 1))%nat] /\
             isTyping (tick s) = true)
            \/ ((1000 <= t + 1)%nat /\ typingTimers (tick s) = [] /\
                isTyping (tick s) = false)).
  { destruct Hty as [[Hlt [Htimers Hon]] | [Hge [Htimers Hoff]]].
    - rewrite Htimers in Htt, Hit. rewrite Hon in Hit.
      remember (1000 - t)%nat as r eqn:Er.
      cbn [filter existsb map] in Htt, Hit. unfold due in Htt, Hit.
      destruct (Nat.leb r 1) eqn:L.
      + apply Nat.leb_le in L. right. cbn in Htt, Hit. repeat split; [lia | assumption ..].
      + apply Nat.leb_gt in L. left. cbn in Htt, Hit.
        split; [lia|]. split; [|assumption].
        rewrite Htt. f_equal. lia.
    - rewrite Htimers in Htt, Hit. rewrite Hoff in Hit. cbn in Htt, Hit.
      right. repeat split; [lia | assumption ..]. }
  split.
  - intros H. split; [now apply Hnext | exact Htyping].
  - intros H. destruct (Hend H) as [Hz Hn].
    destruct Htyping as [[Hlt _] | [_ [Htimers Hoff]]]; [lia|].
    repeat split; assumption.
Qed.

(** An accepted submission of an idle page starts the first phase. *)
Lemma onSubmit_idle_accepted (e : FormEvent) (s : State) :
  idle s ->
  submit_rejected s = false ->
  phase 0 (snd (onSubmit handleSubmit e s)).
Proof.
  intros [Hz [Hn [Htt Hty]]] R.
  destruct (onSubmit_accepted handleSubmit e s R) as [Hc [Ht [_ Hon]]].
  split.
  - split; [rewrite Hc | rewrite Ht]; reflexivity.
  - left. split; [lia|]. split; [|exact Hon].
    unfold onSubmit. rewrite R. cbv zeta.
    rewrite setRateLimitCooldown_changed by (cbn; lia).
    cbn. now rewrite Htt.
Qed.

Lemma step_idle (s : State) (ev : event) :
  idle s ->
  idle (step handleSubmit s ev) \/
  (exists e, ev = Submit e /\ submit_rejected s = false /\
             phase 0 (step handleSubmit s ev)).
Proof.
  intros Hs. destruct ev as [|e|v|f]; cbn [step].
  - left. now rewrite tick_idle.
  - destruct (submit_rejected s) eqn:R.
    + left. now rewrite onSubmit_rejected.
    + right. exists e. split; [reflexivity|]. split; [reflexivity|].
      now apply onSubmit_idle_accepted.
  - left. exact Hs.
  - left. exact Hs.
Qed.

Lemma step_phase (t : nat) (s : State) (ev : event) :
  (t < 3000)%nat ->
  phase t s ->
  match ev with
  | Tick =>
      ((t + 1 < 3000)%nat -> phase (t + 1) (step handleSubmit s ev)) /\
      ((t + 1 = 3000)%nat -> idle (step handleSubmit s ev))
  | _ => phase t (step handleSubmit s ev)
  end.
Proof.
  intros Ht Hs. destruct ev as [|e|v|f]; cbn [step].
  - now apply tick_phase.
  - rewrite onSubmit_rejected; [exact Hs|].
    apply cooldown_rejects. apply counting_down_positive with t; [exact Ht | apply Hs].
  - exact Hs.
  - exact Hs.
Qed.

Lemma step_preserves_page_invariant (s : State) (ev : event) :
  page_invariant s -> page_invariant (step handleSubmit s ev).
Proof.
  intros [Hi | [t [Ht Hp]]].
  - destruct (step_idle s ev Hi) as [H | [e [_ [_ H]]]].
    + now left.
    + right. exists 0%nat. split; [lia | exact H].
  - pose proof (step_phase t s ev Ht Hp) as H.
    destruct ev as [|e|v|f].
    + destruct H as [Hnext Hend].
      destruct (Nat.eq_dec (t + 1) 3000) as [E | E].
      * left. now apply Hend.
      * right. exists (t + 1)%nat. split; [lia | apply Hnext; lia].
    + right. now exists t.
    + right. now exists t.
    + right. now exists t.
Qed.

Lemma run_preserves_page_invariant (evs : list event) (s : State) :
  page_invariant s -> page_invariant (run handleSubmit evs s).
Proof.
  revert s. induction evs as [|ev evs IH]; intros s Hs; [exact Hs|].
  apply IH. now apply step_preserves_page_invariant.
Qed.

Lemma initial_idle : idle initial.
Proof. repeat split. Qed.

Lemma reachable_page_invariant (evs : list event) :
  page_invariant (run handleSubmit evs initial).
Proof.
  apply run_preserves_page_invariant. left. exact initial_idle.
Qed.

Lemma run_phase (evs : list event) :
  forall (s : State) (t : nat),
    phase t s ->
    (t + elapsed evs < 3000)%nat ->
    phase (t + elapsed evs) (run handleSubmit evs s).
Proof.
  induction evs as [|ev evs IH]; intros s t Hs Ht.
  - cbn. now rewrite Nat.add_0_r.
  - assert (Hlt : (t < 3000)%nat) by lia.
    pose proof (step_phase t s ev Hlt Hs) as Hstep.
    change (run handleSubmit (ev :: evs) s)
      with (run handleSubmit evs (step handleSubmit s ev)).
    destruct ev as [|e|v|f].
    + change (elapsed (Tick :: evs)) with (S (elapsed evs)) in *.
      replace (t + S (elapsed evs))%nat with ((t + 1) + elapsed evs)%nat by lia.
      apply IH; [apply Hstep|]; lia.
    + change (elapsed (Submit e :: evs)) with (elapsed evs) in *. now apply IH.
    + change (elapsed (InputChange v :: evs)) with (elapsed evs) in *. now apply IH.
    + change (elapsed (ChatUpdate f :: evs)) with (elapsed evs) in *. now apply IH.
Qed.

Lemma accepted_bound (evs : list event) :
  forall s : State,
    (idle s -> (3000 * accepted handleSubmit evs s <= elapsed evs + 3000)%nat) /\
    (forall t, (t < 3000)%nat -> phase t s ->
               (3000 * accepted handleSubmit evs s <= elapsed evs + t)%nat).
Proof.
  induction evs as [|ev evs IH]; intros s.
  - split; [intros _ | intros t _ _]; cbn; lia.
  - split.
    + intros Hi. destruct ev as [|e|v|f]; cbn [accepted step].
      * change (elapsed (Tick :: evs)) with (S (elapsed evs)).
        rewrite (tick_idle s Hi).
        pose proof (proj1 (IH s) Hi). lia.
      * change (elapsed (Submit e :: evs)) with (elapsed evs).
        destruct (submit_rejected s) eqn:R.
        -- rewrite (onSubmit_rejected handleSubmit e s R). cbn [snd].
           pose proof (proj1 (IH s) Hi). lia.
        -- pose proof (onSubmit_idle_accepted e s Hi R) as Hp.
           pose proof (proj2 (IH _) 0%nat ltac:(lia) Hp). lia.
      * change (elapsed (InputChange v :: evs)) with (elapsed evs).
        assert (Hi' : idle (set_chat (handleInputChange v (chat s)) s)) by exact Hi.
        pose proof (proj1 (IH _) Hi'). lia.
      * change (elapsed (ChatUpdate f :: evs)) with (elapsed evs).
        assert (Hi' : idle (set_chat (f (chat s)) s)) by exact Hi.
        pose proof (proj1 (IH _) Hi'). lia.
    + intros t Ht Hp. pose proof (step_phase t s ev Ht Hp) as Hstep.
      assert (R : submit_rejected s = true).
      { apply cooldown_rejects. apply counting_down_positive with t; [exact Ht | apply Hp]. }
      destruct ev as [|e|v|f]; cbn [accepted]; try rewrite R.
      * change (elapsed (Tick :: evs)) with (S (elapsed evs)).
        destruct Hstep as [Hnext Hend].
        destruct (Nat.eq_dec (t + 1) 3000) as [E | E].
        -- pose proof (proj1 (IH _) (Hend E)). lia.
        -- pose proof (proj2 (IH _) (t + 1)%nat ltac:(lia) (Hnext ltac:(lia))). lia.
      * change (elapsed (Submit e :: evs)) with (elapsed evs).
        pose proof (proj2 (IH _) t Ht Hstep). lia.
      * change (elapsed (InputChange v :: evs)) with (elapsed evs).
        pose proof (proj2 (IH _) t Ht Hstep). lia.
      * change (elapsed (ChatUpdate f :: evs)) with (elapsed evs).
        pose proof (proj2 (IH _) t Ht Hstep). lia.
Qed.

(** X8. From the first render on, whatever happens, at most one submission is
    accepted per three seconds: [n] accepted submissions (calls of the
    hook's [handleSubmit]) take at least [3000 * (n - 1)] milliseconds. *)
Theorem one_accepted_submission_per_three_seconds :
  forall evs : list event,
    (3000 * accepted handleSubmit evs initial <= elapsed evs + 3000)%nat.
Proof.
  intros evs. exact (proj1 (accepted_bound evs initial) initial_idle).
Qed.

(** X9. In every state the page reaches from its first render: the counter is
    0, 1, 2 or 3; the timeout of the effect is pending exactly when the
    counter is not 0, it closed over the current counter and has between 1
    and 1000 milliseconds to run; at most one timeout of the typing
    indicator is pending; and the typing indicator is on only while the
    counter is 3. *)
Theorem reachable_states :
  forall evs : list event,
    (0 <= rateLimitCooldown (run handleSubmit evs initial) <= 3) /\
    (cooldownTimer (run handleSubmit evs initial) = None <->
     rateLimitCooldown (run handleSubmit evs initial) = 0) /\
    (forall tm, cooldownTimer (run handleSubmit evs initial) = Some tm ->
                captured tm = rateLimitCooldown (run handleSubmit evs initial) /\
                (1 <= remaining tm <= 1000)%nat) /\
    (List.length (typingTimers (run handleSubmit evs initial)) <= 1)%nat /\
    (isTyping (run handleSubmit evs initial) = true ->
     rateLimitCooldown (run handleSubmit evs initial) = 3).
Proof.
  intros evs.
  destruct (reachable_page_invariant evs) as [[Hz [Hn [Htt Hty]]] | [t [Ht [[Hc Htm] Hp]]]].
  - rewrite Hz, Hn, Htt, Hty. split; [lia|]. split; [split; reflexivity|].
    split; [intros tm H; discriminate|]. split; [cbn; lia | discriminate].
  - rewrite Hc, Htm. split; [lia|]. split; [split; intros H; [discriminate | lia]|].
    split.
    { intros tm H.
      assert (E : {| remaining := (1000 - t mod 1000)%nat;
                     captured := 3 - Z.of_nat (t / 1000) |} = tm) by congruence.
      rewrite <- E. cbn [captured remaining]. lia. }
    destruct Hp as [[Hlt [-> ->]] | [Hge [-> ->]]].
    + split; [cbn; lia | intros _; lia].
    + split; [cbn; lia | discriminate].
Qed.

(** X10. Once the counter is back at 0 nothing is pending: time alone does not
    change the page any more. *)
Theorem idle_page_is_still :
  forall (evs : list event) (n : nat),
    rateLimitCooldown (run handleSubmit evs initial) = 0 ->
    run handleSubmit (repeat Tick n) (run handleSubmit evs initial)
    = run handleSubmit evs initial.
Proof.
  intros evs n Hz.
  destruct (reachable_page_invariant evs) as [Hi | [t [Ht [[Hc _] _]]]].
  - induction n as [|n IH]; [reflexivity|].
    cbn [repeat]. change (run handleSubmit (Tick :: repeat Tick n) ?s)
      with (run handleSubmit (repeat Tick n) (tick s)).
    now rewrite (tick_idle _ Hi).
  - exfalso. rewrite Hc in Hz. lia.
Qed.

(** X11. After a submission that the page accepts, the typing indicator is on
    for the first second and off from then until the cooldown ends,
    whatever else happens in between. *)
Theorem typing_indicator_lasts_one_second :
  forall (before : list event) (e : FormEvent) (evs : list event),
    submit_rejected (run handleSubmit before initial) = false ->
    ((elapsed evs < 1000)%nat ->
     isTyping (run handleSubmit evs
                 (snd (onSubmit handleSubmit e (run handleSubmit before initial)))) = true) /\
    ((1000 <= elapsed evs < 3000)%nat ->
     isTyping (run handleSubmit evs
                 (snd (onSubmit handleSubmit e (run handleSubmit before initial)))) = false).
Proof.
  intros before e evs R.
  assert (Hi : idle (run handleSubmit before initial)).
  { destruct (reachable_page_invariant before) as [Hi | [t [Ht [Hc _]]]]; [exact Hi|].
    pose proof (cooldown_rejects _ (counting_down_positive t _ Ht Hc)). congruence. }
  pose proof (onSubmit_idle_accepted e _ Hi R) as H0.
  split; intros Hel.
  - destruct (run_phase evs _ 0%nat H0 ltac:(cbn; lia)) as [_ [[_ [_ H]] | [H _]]];
      [exact H | cbn in H; lia].
  - destruct (run_phase evs _ 0%nat H0 ltac:(cbn; lia)) as [_ [[H _] | [_ [_ H]]]];
      [cbn in H; lia | exact H].
Qed.

End ChatPagePhaseProperties.

Section ChatPagePhaseWitnesses.
Import ChatPage ChatPagePhases.

Lemma idle_page_is_still_witness :
  run sdk_handleSubmit (repeat Tick 5000) (run sdk_handleSubmit [InputChange "hi"] initial)
  = run sdk_handleSubmit [InputChange "hi"] initial.
Proof.
  exact (idle_page_is_still sdk_handleSubmit [InputChange "hi"] 5000 eq_refl).
Defined.

Lemma typing_indicator_lasts_one_second_witness :
  isTyping
    (run sdk_handleSubmit (repeat Tick 999)
       (snd (onSubmit sdk_handleSubmit Samples.submit_event
               (run sdk_handleSubmit [InputChange "hi"] initial)))) = true /\
  isTyping
    (run sdk_handleSubmit (repeat Tick 1000)
       (snd (onSubmit sdk_handleSubmit Samples.submit_event
               (run sdk_handleSubmit [InputChange "hi"] initial)))) = false.
Proof.
  split.
  - apply (typing_indicator_lasts_one_second sdk_handleSubmit [InputChange "hi"]
             Samples.submit_event (repeat Tick 999) eq_refl).
    vm_compute. lia.
  - apply (typing_indicator_lasts_one_second sdk_handleSubmit [InputChange "hi"]
             Samples.submit_event (repeat Tick 1000) eq_refl).
    vm_compute. lia.
Defined.

Lemma reachable_states_witness :
  isTyping (run sdk_handleSubmit [InputChange "hi"; Submit Samples.submit_event] initial)
  = true /\
  rateLimitCooldown
    (run sdk_handleSubmit [InputChange "hi"; Submit Samples.submit_event] initial) = 3.
Proof.
  split; [reflexivity|].
  destruct (reachable_states sdk_handleSubmit
              [InputChange "hi"; Submit Samples.submit_event]) as [_ [_ [_ [_ H]]]].
  exact (H eq_refl).
Defined.

Lemma page_reading_of_answers_witness :
  Endpoint.response_type (Endpoint.classify Samples.too_many_requests) = Some "rate_limit" /\
  ChatErrors.title
    (ChatErrors.onError
       (JsError.mk (Json.response_text (Endpoint.classify Samples.too_many_requests)) None))
  = "Error".
Proof.
  split; [reflexivity|].
  destruct (page_reading_of_answers Samples.too_many_requests) as [_ [H _]].
  exact (H eq_refl).
Defined.

End ChatPagePhaseWitnesses.
